(** * ServiceStatusChangedNotifier: a shallow embedding and its properties

    The development follows [ServiceStatusChangedNotifier.cpp] and the class
    declaration in its header:

    - [NotifyCallbackFunc], the static callback the service control manager
      invokes, which filters by the notify mask and calls the user's
      [action_function];
    - [Start] and [Stop], which fill and tear down [service_data_map_];
    - the two wrappers that resolve [SubscribeServiceChangeNotifications] and
      [UnsubscribeServiceChangeNotifications] from [SecHost.dll] at run time.

    Windows is an external collaborator.  Its answers are the fields of a
    record [OS]: during one run the answer to a call is a function of the
    call's arguments.  Every function below takes that record and, besides
    its result, returns the list of calls it made, in program order.  All
    theorems hold for every such system. *)

From Stdlib Require Import NArith List String Lia Permutation.
From stdpp Require Import gmap strings list fin_maps.

Local Open Scope string_scope.
Local Open Scope list_scope.
Local Open Scope N_scope.

(** ** Windows types *)

(** [DWORD] is an unsigned 32-bit integer.  The code only compares DWORDs and
    ORs them together, so no operation leaves the 32-bit range. *)
Definition DWORD := N.

(** [std::wstring]; a service name. *)
Definition wstring := string.

(** Handles ([SC_HANDLE], [HINSTANCE], [FARPROC],
    [PSC_NOTIFICATION_REGISTRATION]) are opaque pointers; the code only hands
    them back to Windows and tests them against [nullptr]. *)
Definition HANDLE := N.
Definition SC_HANDLE := HANDLE.
Definition HINSTANCE := HANDLE.
Definition FARPROC := HANDLE.
Definition PSC_NOTIFICATION_REGISTRATION := HANDLE.

Definition nullptr : HANDLE := 0.

(** [if (handle)]: a pointer converts to [true] when it is not null. *)
Definition non_null (h : HANDLE) : bool := negb (h =? nullptr).

(** Constants of the Windows SDK ([winerror.h], [winsvc.h], [minwindef.h]). *)
Definition ERROR_SUCCESS : DWORD := 0.
Definition SC_EVENT_TYPE := DWORD.
Definition SC_EVENT_STATUS_CHANGE : SC_EVENT_TYPE := 2.
Definition MAX_PATH : nat := 260.

(** ** The action function and the dispatch context *)

(** A C++ call either returns or leaves by an exception. *)
Inductive exception :=
| bad_function_call
| user_exception (what : string).

Inductive completion :=
| returns
| throws (e : exception).

(** [ActionFunction] is
    [std::function<void(const std::wstring &, DWORD)>]: either empty ([None])
    or a callable target, which may itself throw. *)
Definition ActionFunction := option (wstring -> DWORD -> completion).

(** [std::function::operator bool]. *)
Definition callable (f : ActionFunction) : bool :=
  match f with
  | Some _ => true
  | None => false
  end.

(** [std::function::operator()]: calling an empty function object throws
    [std::bad_function_call]. *)
Definition invoke (f : ActionFunction) (service_name : wstring)
    (current_state : DWORD) : completion :=
  match f with
  | Some target => target service_name current_state
  | None => throws bad_function_call
  end.

(** [Context], the instance data handed to the static callback. *)
Record Context := {
  notify_mask : DWORD;
  action_function : ActionFunction
}.

(** [SERVICE_NOTIFY] of [winsvc.h].  The code writes and reads two of its
    fields, [pContext] and [pszServiceNames]; the others are zeroed by
    [memset] and never touched again.  The record is parametric in what its
    two pointers denote: addresses, where the structure is stored in an
    entry of the map, or the objects pointed to, where the callback follows
    them. *)
Record SERVICE_NOTIFY (C S : Type) := {
  pContext : option C;
  pszServiceNames : S
}.
Arguments pContext {C S} _.
Arguments pszServiceNames {C S} _.

(** What [static_cast<PSERVICE_NOTIFY>(pCallbackContext)] points to, with the
    two pointers the callback follows already dereferenced: [pContext] is
    null or points to a [Context]; [pszServiceNames] is the string of the
    entry's name buffer. *)
Definition NotifyBuffer := SERVICE_NOTIFY Context wstring.

(** ** The notification dispatcher *)

(** What one run of the callback did: the calls of
    [context->action_function(...)] it executed, with their arguments, and
    how the run ended.  There is no [try] in the function, so an exception of
    the call is the exception of the run. *)
Record delivery := {
  calls : list (wstring * DWORD);
  result : completion
}.

Definition dropped : delivery := {| calls := []; result := returns |}.

(** The condition of the innermost [if].  In C++ [&&] binds tighter than
    [||], so
    [a && (n | m) == m || n == 0] parses as [(a && (n | m) == m) || n == 0]. *)
Definition notify_condition (context : Context) (dwNotify : DWORD) : bool :=
  (callable (action_function context)
   && (N.lor dwNotify (notify_mask context) =? notify_mask context))
  || (dwNotify =? 0).

Definition NotifyCallbackFunc (dwNotify : DWORD)
    (pCallbackContext : option NotifyBuffer) : delivery :=
  match pCallbackContext with
  | Some notify_buffer =>
      match pContext notify_buffer with
      | Some context =>
          if notify_condition context dwNotify then
            {| calls := [(pszServiceNames notify_buffer, dwNotify)];
               result := invoke (action_function context)
                                (pszServiceNames notify_buffer) dwNotify |}
          else dropped
      | None => dropped
      end
  | None => dropped
  end.

(** The predicate of the specification, for comparison:
    the action callback is present AND (flags are zero OR a subset of the
    mask). *)
Definition spec_dispatch_predicate (context : Context) (dwNotify : DWORD) : bool :=
  callable (action_function context)
  && ((dwNotify =? 0)
      || (N.lor dwNotify (notify_mask context) =? notify_mask context)).

(** ** The subscription registry *)

(** The addresses the registry hands out.  They are stable: the map is a
    node-based [std::unordered_map] and [context_] is a member of the
    notifier, which can be neither copied nor moved. *)
Inductive address :=
| addr_context_                        (* &context_ *)
| addr_service_name (key : wstring)    (* service_data_map_[key].service_name *)
| addr_notify_buffer (key : wstring).  (* &service_data_map_[key].notify_buffer *)

Definition PVOID := option address.

(** [ServiceData], the per-service data that has to persist while the
    service is monitored.  [service_name] is the characters written to the
    [wchar_t[MAX_PATH + 1]] array, the zeros that follow them left out.  The
    copy does not check the length: the model follows the code as long as
    the names copied have at most [MAX_PATH] characters ([names_fit] below),
    beyond which the code runs over the array. *)
Record ServiceData := {
  service_name : wstring;
  notify_buffer : SERVICE_NOTIFY address PVOID;
  registration : PSC_NOTIFICATION_REGISTRATION;
  system_error_code : DWORD
}.

(** The default member initialisers of [ServiceData]. *)
Definition ServiceData_default : ServiceData :=
  {| service_name := "";
     notify_buffer := {| pContext := None; pszServiceNames := None |};
     registration := nullptr;
     system_error_code := ERROR_SUCCESS |}.

(** [value.registration = r]. *)
Definition set_registration (r : PSC_NOTIFICATION_REGISTRATION)
    (value : ServiceData) : ServiceData :=
  {| service_name := service_name value;
     notify_buffer := notify_buffer value;
     registration := r;
     system_error_code := system_error_code value |}.

(** The notifier object: its two data members. *)
Record ServiceStatusChangedNotifier := {
  service_data_map_ : gmap wstring ServiceData;
  context_ : Context
}.

(** A default-constructed notifier. *)
Definition ServiceStatusChangedNotifier_new : ServiceStatusChangedNotifier :=
  {| service_data_map_ := ∅;
     context_ := {| notify_mask := 0; action_function := None |} |}.

(** [service_data_map_[key]]: the entry under [key], default-constructed
    when the key is new. *)
Definition subscript (m : gmap wstring ServiceData) (key : wstring) : ServiceData :=
  default ServiceData_default (m !! key).

(** [src.copy(dest, src.length())]: overwrites the first [src.length()]
    characters of [dest] and writes no terminator, so what [dest] held beyond
    them stays. *)
Definition wstring_copy (src dest : wstring) : wstring :=
  (src ++ String.substring (String.length src)
                           (String.length dest - String.length src) dest)%string.

(** ** Windows as an oracle, and the calls made to it *)

(** The answers of the system.  [SubscribeServiceChangeNotifications address]
    is what calling the function at [address] with the prototype's arguments
    does: it takes the value [*pSubscription] holds on entry and gives the
    status it returns with the value [*pSubscription] holds on exit.  (The
    callback argument is always [NotifyCallbackFunc].) *)
Record OS := {
  OpenSCManager : SC_HANDLE;
  OpenService : SC_HANDLE -> wstring -> SC_HANDLE;
  LoadLibrary : wstring -> HINSTANCE;
  GetLastError : DWORD;
  GetProcAddress : HINSTANCE -> string -> FARPROC;
  SubscribeServiceChangeNotifications :
    FARPROC -> SC_HANDLE -> SC_EVENT_TYPE -> PVOID ->
    PSC_NOTIFICATION_REGISTRATION -> DWORD * PSC_NOTIFICATION_REGISTRATION
}.

(** The calls a run makes, in program order: the system calls, and the calls
    of the two wrappers with their arguments. *)
Inductive event :=
| ev_OpenSCManager
| ev_OpenService (scm : SC_HANDLE) (name : wstring)
| ev_CloseServiceHandle (handle : SC_HANDLE)
| ev_LoadLibrary (dll_name : wstring)
| ev_GetLastError
| ev_GetProcAddress (dll : HINSTANCE) (symbol : string)
| ev_FreeLibrary (dll : HINSTANCE)
| ev_SubscribeWrapper (hService : SC_HANDLE) (eEventType : SC_EVENT_TYPE)
    (pCallbackContext : PVOID)
| ev_Subscribe (address : FARPROC) (hService : SC_HANDLE)
    (eEventType : SC_EVENT_TYPE) (pCallbackContext : PVOID)
| ev_UnsubscribeWrapper (pSubscription : PSC_NOTIFICATION_REGISTRATION)
| ev_Unsubscribe (address : FARPROC)
    (pSubscription : PSC_NOTIFICATION_REGISTRATION).

(** The deleters of the two scoped handles ([SCHandleCloser] and the lambda
    of [ScopedDllHandle]), run when the scope ends; [std::unique_ptr] runs
    its deleter only on a pointer that is not null. *)
Definition SCHandleCloser (handle : SC_HANDLE) : list event :=
  if non_null handle then [ev_CloseServiceHandle handle] else [].

Definition dll_deleter (handle : HINSTANCE) : list event :=
  if non_null handle then [ev_FreeLibrary handle] else [].

Section Notifier.

Variable os : OS.

Definition ScopedDllHandle (dll_name : wstring) : HINSTANCE * list event :=
  (LoadLibrary os dll_name, [ev_LoadLibrary dll_name]).

(** ** The binding shim *)

(** Returns [return_value] and the value left in [*pSubscription]. *)
Definition SubscribeServiceChangeNotificationsWrapper
    (hService : SC_HANDLE) (eEventType : SC_EVENT_TYPE)
    (pCallbackContext : PVOID)
    (pSubscription : PSC_NOTIFICATION_REGISTRATION)
  : (DWORD * PSC_NOTIFICATION_REGISTRATION) * list event :=
  let return_value : DWORD := 0 in
  let pSubscription := nullptr in
  let '(dll, t_load) := ScopedDllHandle "SecHost.dll" in
  if non_null dll then
    let address :=
      GetProcAddress os dll "SubscribeServiceChangeNotifications" in
    let t_addr :=
      [ev_GetProcAddress dll "SubscribeServiceChangeNotifications"] in
    if non_null address then
      let '(return_value, pSubscription) :=
        SubscribeServiceChangeNotifications os address hService eEventType
          pCallbackContext pSubscription in
      ((return_value, pSubscription),
       t_load ++ t_addr
       ++ [ev_Subscribe address hService eEventType pCallbackContext]
       ++ dll_deleter dll)
    else
      ((return_value, pSubscription), t_load ++ t_addr ++ dll_deleter dll)
  else
    let return_value := GetLastError os in
    ((return_value, pSubscription),
     t_load ++ [ev_GetLastError] ++ dll_deleter dll).

Definition UnsubscribeServiceChangeNotificationsWrapper
    (pSubscription : PSC_NOTIFICATION_REGISTRATION) : list event :=
  let '(dll, t_load) := ScopedDllHandle "SecHost.dll" in
  if non_null dll then
    let address :=
      GetProcAddress os dll "UnsubscribeServiceChangeNotifications" in
    let t_addr :=
      [ev_GetProcAddress dll "UnsubscribeServiceChangeNotifications"] in
    if non_null address then
      t_load ++ t_addr ++ [ev_Unsubscribe address pSubscription]
      ++ dll_deleter dll
    else t_load ++ t_addr ++ dll_deleter dll
  else t_load ++ dll_deleter dll.

(** ** Start *)

(** The body of the loop over [service_list], for one name. *)
Definition Start_service (scm : SC_HANDLE)
    (m : gmap wstring ServiceData) (name : wstring)
  : gmap wstring ServiceData * list event :=
  let service := OpenService os scm name in
  if non_null service then
    let buffer := wstring_copy name (service_name (subscript m name)) in
    let notify_buffer := Some (addr_notify_buffer name) in
    let '((code, subscription), t_sub) :=
      SubscribeServiceChangeNotificationsWrapper service
        SC_EVENT_STATUS_CHANGE notify_buffer
        (registration (subscript m name)) in
    (<[name :=
         {| service_name := buffer;
            notify_buffer :=
              {| pContext := Some addr_context_;
                 pszServiceNames := Some (addr_service_name name) |};
            registration := subscription;
            system_error_code := code |}]> m,
     [ev_OpenService scm name]
     ++ [ev_SubscribeWrapper service SC_EVENT_STATUS_CHANGE notify_buffer]
     ++ t_sub ++ SCHandleCloser service)
  else (m, [ev_OpenService scm name] ++ SCHandleCloser service).

(** The loop: the names in the order of the vector, the map and the calls
    threaded through. *)
Definition Start_loop (scm : SC_HANDLE) (service_list : list wstring)
    (m : gmap wstring ServiceData)
  : gmap wstring ServiceData * list event :=
  fold_left
    (fun (acc : gmap wstring ServiceData * list event) (name : wstring) =>
       let '(m', t') := Start_service scm (fst acc) name in
       (m', snd acc ++ t'))
    service_list (m, []).

Definition Start (this : ServiceStatusChangedNotifier)
    (service_list : list wstring) (notify_mask : DWORD)
    (action_function : ActionFunction)
  : ServiceStatusChangedNotifier * list event :=
  let context :=
    {| notify_mask := notify_mask; action_function := action_function |} in
  let scm := OpenSCManager os in
  if non_null scm then
    let '(m, t) := Start_loop scm service_list (service_data_map_ this) in
    ({| service_data_map_ := m; context_ := context |},
     [ev_OpenSCManager] ++ t ++ SCHandleCloser scm)
  else
    ({| service_data_map_ := service_data_map_ this; context_ := context |},
     [ev_OpenSCManager] ++ SCHandleCloser scm).

(** ** Stop and the destructor *)

(** The body of the loop of [Stop], for one value of the map. *)
Definition Stop_value (value : ServiceData) : ServiceData * list event :=
  if non_null (registration value) then
    (set_registration nullptr value,
     ev_UnsubscribeWrapper (registration value)
     :: UnsubscribeServiceChangeNotificationsWrapper (registration value))
  else (value, []).

(** The loop visits the values in the map's own order and updates each in
    place. *)
Definition Stop_loop (entries : list (wstring * ServiceData))
    (m : gmap wstring ServiceData)
  : gmap wstring ServiceData * list event :=
  fold_left
    (fun (acc : gmap wstring ServiceData * list event)
         (entry : wstring * ServiceData) =>
       let '(value', t') := Stop_value (snd entry) in
       (<[fst entry := value']> (fst acc), snd acc ++ t'))
    entries (m, []).

Definition Stop (this : ServiceStatusChangedNotifier)
  : ServiceStatusChangedNotifier * list event :=
  let '(m, t) :=
    Stop_loop (map_to_list (service_data_map_ this)) (service_data_map_ this) in
  ({| service_data_map_ := m; context_ := context_ this |}, t).

(** [~ServiceStatusChangedNotifier() { Stop(); }]: the body calls [Stop];
    the members are destroyed afterwards, which makes no call to the system.
    The object is gone, what remains is the calls made. *)
Definition destructor (this : ServiceStatusChangedNotifier) : list event :=
  let '(_, t) := Stop this in t.

End Notifier.

(** ** What is observed of a run *)

(** The registration handles the wrapper of the cancel primitive was called
    with, in call order. *)
Fixpoint unsubscribe_requests (t : list event)
  : list PSC_NOTIFICATION_REGISTRATION :=
  match t with
  | [] => []
  | ev_UnsubscribeWrapper r :: t' => r :: unsubscribe_requests t'
  | _ :: t' => unsubscribe_requests t'
  end.

(** The registration handles that reached
    [UnsubscribeServiceChangeNotifications] itself. *)
Fixpoint unsubscribed (t : list event) : list PSC_NOTIFICATION_REGISTRATION :=
  match t with
  | [] => []
  | ev_Unsubscribe _ r :: t' => r :: unsubscribed t'
  | _ :: t' => unsubscribed t'
  end.

(** The services that reached [SubscribeServiceChangeNotifications] itself,
    each with the callback context it was registered with. *)
Fixpoint subscribed (t : list event) : list (SC_HANDLE * PVOID) :=
  match t with
  | [] => []
  | ev_Subscribe _ hService _ pCallbackContext :: t' =>
      (hService, pCallbackContext) :: subscribed t'
  | _ :: t' => subscribed t'
  end.

(** The cancellation behaviour of a run: what was asked of the wrapper and
    what reached the system. *)
Definition cancellation_behaviour (t : list event)
  : list PSC_NOTIFICATION_REGISTRATION * list PSC_NOTIFICATION_REGISTRATION :=
  (unsubscribe_requests t, unsubscribed t).

(** The steps of [Start] on a service: opening it, and submitting it to the
    subscribe wrapper. *)
Inductive step :=
| opened (name : wstring)
| submitted (name : wstring).

Fixpoint processing_steps (t : list event) : list step :=
  match t with
  | [] => []
  | ev_OpenService _ name :: t' => opened name :: processing_steps t'
  | ev_SubscribeWrapper _ _ (Some (addr_notify_buffer name)) :: t' =>
      submitted name :: processing_steps t'
  | _ :: t' => processing_steps t'
  end.

Fixpoint opened_names (steps : list step) : list wstring :=
  match steps with
  | [] => []
  | opened name :: steps' => name :: opened_names steps'
  | submitted _ :: steps' => opened_names steps'
  end.

Fixpoint submitted_names (steps : list step) : list wstring :=
  match steps with
  | [] => []
  | opened _ :: steps' => submitted_names steps'
  | submitted name :: steps' => name :: submitted_names steps'
  end.

(** The steps [Start] takes on one name: it opens the service and, when
    that succeeded, submits it. *)
Definition steps_of (os : OS) (scm : SC_HANDLE) (name : wstring) : list step :=
  if non_null (OpenService os scm name)
  then [opened name; submitted name]
  else [opened name].

(** The registration handles the entries of a map hold, in the map's order. *)
Definition live_registrations (m : gmap wstring ServiceData)
  : list PSC_NOTIFICATION_REGISTRATION :=
  List.filter non_null (List.map (fun entry => registration (snd entry))
                                 (map_to_list m)).

(** The cancel primitive can be reached: [SecHost.dll] loads and exports
    [UnsubscribeServiceChangeNotifications]. *)
Definition unsubscribe_resolves (os : OS) : bool :=
  non_null (LoadLibrary os "SecHost.dll")
  && non_null (GetProcAddress os (LoadLibrary os "SecHost.dll")
                 "UnsubscribeServiceChangeNotifications").

(** The subscribe primitive can be reached. *)
Definition subscribe_resolves (os : OS) : bool :=
  non_null (LoadLibrary os "SecHost.dll")
  && non_null (GetProcAddress os (LoadLibrary os "SecHost.dll")
                 "SubscribeServiceChangeNotifications").

(** The string a [wchar_t *] denotes: the characters before the first
    zero.  It is what [c_str()] hands to Windows and what the callback's
    [std::wstring] parameter is built from. *)
Fixpoint c_str (s : wstring) : wstring :=
  match s with
  | EmptyString => EmptyString
  | String c s' =>
      if Ascii.eqb c Ascii.zero then EmptyString else String c (c_str s')
  end.

(** Every key of the map fits the name array of its entry together with a
    terminating zero: the array has [MAX_PATH + 1] elements and the copy
    writes no terminator, so a name of up to [MAX_PATH] characters leaves
    the array terminated and is read back inside it. *)
Definition names_fit (m : gmap wstring ServiceData) : bool :=
  forallb (fun entry => Nat.leb (String.length (fst entry)) MAX_PATH)
          (map_to_list m).

(** Reading the memory of a notifier at the address the system hands back to
    the callback: the notify buffer of an entry, its [pContext] followed to
    the notifier's one [context_] as it is now, its [pszServiceNames]
    followed to the name buffer it points to and read as the string that
    ends at the first zero. *)
Definition deref (this : ServiceStatusChangedNotifier) (p : PVOID)
  : option NotifyBuffer :=
  match p with
  | Some (addr_notify_buffer key) =>
      match service_data_map_ this !! key with
      | Some value =>
          match pszServiceNames (notify_buffer value) with
          | Some (addr_service_name key') =>
              match service_data_map_ this !! key' with
              | Some value' =>
                  Some {| pContext :=
                            match pContext (notify_buffer value) with
                            | Some addr_context_ => Some (context_ this)
                            | _ => None
                            end;
                          pszServiceNames := c_str (service_name value') |}
              | None => None
              end
          | _ => None
          end
      | None => None
      end
  | _ => None
  end.

(** The context a callback argument resolves to, if both pointers on the way
    are set. *)
Definition resolve (pCallbackContext : option NotifyBuffer) : option Context :=
  match pCallbackContext with
  | Some notify_buffer => pContext notify_buffer
  | None => None
  end.

(** ** Concrete systems and inputs *)

(** A system on which everything succeeds for the services [Alpha] and
    [Gamma], and no other service exists. *)
Definition os_demo : OS :=
  {| OpenSCManager := 1;
     OpenService := fun _ name =>
       if String.eqb name "Alpha" then 10
       else if String.eqb name "Gamma" then 12
       else nullptr;
     LoadLibrary := fun _ => 100;
     GetLastError := 126;
     GetProcAddress := fun _ _ => 200;
     SubscribeServiceChangeNotifications := fun _ hService _ _ _ =>
       (ERROR_SUCCESS, hService + 1000) |}.

(** The same system at a later time: it hands out other registration
    handles. *)
Definition os_later : OS :=
  {| OpenSCManager := 1;
     OpenService := OpenService os_demo;
     LoadLibrary := LoadLibrary os_demo;
     GetLastError := 126;
     GetProcAddress := GetProcAddress os_demo;
     SubscribeServiceChangeNotifications := fun _ hService _ _ _ =>
       (ERROR_SUCCESS, hService + 2000) |}.

(** The service control manager cannot be opened. *)
Definition os_no_scm : OS :=
  {| OpenSCManager := nullptr;
     OpenService := OpenService os_demo;
     LoadLibrary := LoadLibrary os_demo;
     GetLastError := 5;
     GetProcAddress := GetProcAddress os_demo;
     SubscribeServiceChangeNotifications :=
       SubscribeServiceChangeNotifications os_demo |}.

(** [SecHost.dll] cannot be loaded. *)
Definition os_no_dll : OS :=
  {| OpenSCManager := 1;
     OpenService := OpenService os_demo;
     LoadLibrary := fun _ => nullptr;
     GetLastError := 126;
     GetProcAddress := GetProcAddress os_demo;
     SubscribeServiceChangeNotifications :=
       SubscribeServiceChangeNotifications os_demo |}.

(** [SecHost.dll] loads but exports neither primitive. *)
Definition os_no_symbol : OS :=
  {| OpenSCManager := 1;
     OpenService := OpenService os_demo;
     LoadLibrary := LoadLibrary os_demo;
     GetLastError := 127;
     GetProcAddress := fun _ _ => nullptr;
     SubscribeServiceChangeNotifications :=
       SubscribeServiceChangeNotifications os_demo |}.

Definition SERVICE_NOTIFY_STOPPED : DWORD := 1.
Definition SERVICE_NOTIFY_RUNNING : DWORD := 8.

(** A callback that returns, and one that throws. *)
Definition quiet_action : ActionFunction := Some (fun _ _ => returns).
Definition throwing_action : ActionFunction :=
  Some (fun _ _ => throws (user_exception "action failed")).

Definition buffer_for (name : wstring) (mask : DWORD) (action : ActionFunction)
  : NotifyBuffer :=
  {| pContext := Some {| notify_mask := mask; action_function := action |};
     pszServiceNames := name |}.

(** A notifier started on [Alpha], [Beta] and [Gamma] on [os_demo]. *)
Definition started_demo : ServiceStatusChangedNotifier :=
  fst (Start os_demo ServiceStatusChangedNotifier_new
         ["Alpha"; "Beta"; "Gamma"] SERVICE_NOTIFY_STOPPED quiet_action).

(** ** Handles and libraries in a run *)

(** The handles given to [CloseServiceHandle], the libraries asked of
    [LoadLibrary] and the modules given to [FreeLibrary], in call order. *)
Fixpoint closed_handles (t : list event) : list SC_HANDLE :=
  match t with
  | [] => []
  | ev_CloseServiceHandle handle :: t' => handle :: closed_handles t'
  | _ :: t' => closed_handles t'
  end.

Fixpoint loaded_libraries (t : list event) : list wstring :=
  match t with
  | [] => []
  | ev_LoadLibrary dll_name :: t' => dll_name :: loaded_libraries t'
  | _ :: t' => loaded_libraries t'
  end.

Fixpoint freed_libraries (t : list event) : list HINSTANCE :=
  match t with
  | [] => []
  | ev_FreeLibrary dll :: t' => dll :: freed_libraries t'
  | _ :: t' => freed_libraries t'
  end.

(** The modules to free for a sequence of [LoadLibrary] calls: the module of
    each call that succeeded. *)
Definition modules_of (os : OS) (dll_names : list wstring) : list HINSTANCE :=
  flat_map (fun dll_name =>
              if non_null (LoadLibrary os dll_name)
              then [LoadLibrary os dll_name] else [])
           dll_names.

(** What the subscribe wrapper returns for a service of the list: the
    status and the registration handle [Start] stores in its entry. *)
Definition obtained (os : OS) (name : wstring)
  : DWORD * PSC_NOTIFICATION_REGISTRATION :=
  fst (SubscribeServiceChangeNotificationsWrapper os
         (OpenService os (OpenSCManager os) name) SC_EVENT_STATUS_CHANGE
         (Some (addr_notify_buffer name)) nullptr).

(** [Start] processes the name: the service control manager opened, the name
    is in the list and its service opened. *)
Definition processed (os : OS) (service_list : list wstring) (name : wstring)
  : bool :=
  non_null (OpenSCManager os)
  && bool_decide (name ∈ service_list)
  && non_null (OpenService os (OpenSCManager os) name).

(** ** The states a notifier goes through *)

(** An entry is wired as [Start] wires it: its name buffer holds its key,
    its notify buffer points to the notifier's context and to that name
    buffer. *)
Definition wired (key : wstring) (value : ServiceData) : Prop :=
  service_name value = key
  /\ notify_buffer value
     = {| pContext := Some addr_context_;
          pszServiceNames := Some (addr_service_name key) |}.

Definition well_formed (this : ServiceStatusChangedNotifier) : Prop :=
  forall key value,
    service_data_map_ this !! key = Some value -> wired key value.

(** The notifiers that exist: a default-constructed one, and what [Start]
    and [Stop] make of one, on whatever system each call runs.  (The class
    has no other member function and can be neither copied nor moved.) *)
Inductive reachable : ServiceStatusChangedNotifier -> Prop :=
| reachable_new : reachable ServiceStatusChangedNotifier_new
| reachable_Start (os : OS) (this : ServiceStatusChangedNotifier)
    (service_list : list wstring) (notify_mask : DWORD)
    (action_function : ActionFunction) :
    reachable this ->
    reachable (fst (Start os this service_list notify_mask action_function))
| reachable_Stop (os : OS) (this : ServiceStatusChangedNotifier) :
    reachable this -> reachable (fst (Stop os this)).

(** ** The earlier revision of the file *)

(** The source file also holds the revision before scoped handles were
    introduced: the same class with handles closed by hand, the wrappers
    named [..._wrapper], and a callback that did not forward zero flags. *)
Module Earlier.

Definition notify_condition (context : Context) (dwNotify : DWORD) : bool :=
  callable (action_function context)
  && negb (dwNotify =? 0)
  && (N.lor dwNotify (notify_mask context) =? notify_mask context).

Definition NotifyCallbackFunc (dwNotify : DWORD)
    (pCallbackContext : option NotifyBuffer) : delivery :=
  match pCallbackContext with
  | Some notify_buffer =>
      match pContext notify_buffer with
      | Some context =>
          if notify_condition context dwNotify then
            {| calls := [(pszServiceNames notify_buffer, dwNotify)];
               result := invoke (action_function context)
                                (pszServiceNames notify_buffer) dwNotify |}
          else dropped
      | None => dropped
      end
  | None => dropped
  end.

Section Notifier.

Variable os : OS.

Definition SubscribeServiceChangeNotifications_wrapper
    (hService : SC_HANDLE) (eEventType : SC_EVENT_TYPE)
    (pCallbackContext : PVOID)
    (pSubscription : PSC_NOTIFICATION_REGISTRATION)
  : (DWORD * PSC_NOTIFICATION_REGISTRATION) * list event :=
  let return_value : DWORD := 0 in
  let pSubscription := nullptr in
  let dll := LoadLibrary os "SecHost.dll" in
  if non_null dll then
    let fpSubscribeServiceChangeNotifications :=
      GetProcAddress os dll "SubscribeServiceChangeNotifications" in
    if non_null fpSubscribeServiceChangeNotifications then
      let '(return_value, pSubscription) :=
        SubscribeServiceChangeNotifications os
          fpSubscribeServiceChangeNotifications hService eEventType
          pCallbackContext pSubscription in
      ((return_value, pSubscription),
       [ev_LoadLibrary "SecHost.dll";
        ev_GetProcAddress dll "SubscribeServiceChangeNotifications";
        ev_Subscribe fpSubscribeServiceChangeNotifications hService eEventType
          pCallbackContext;
        ev_FreeLibrary dll])
    else
      ((return_value, pSubscription),
       [ev_LoadLibrary "SecHost.dll";
        ev_GetProcAddress dll "SubscribeServiceChangeNotifications";
        ev_FreeLibrary dll])
  else
    let return_value := GetLastError os in
    ((return_value, pSubscription),
     [ev_LoadLibrary "SecHost.dll"; ev_GetLastError]).

Definition UnsubscribeServiceChangeNotifications_wrapper
    (pSubscription : PSC_NOTIFICATION_REGISTRATION) : list event :=
  let dll := LoadLibrary os "SecHost.dll" in
  if non_null dll then
    let fpUnsubscribeServiceChangeNotifications :=
      GetProcAddress os dll "UnsubscribeServiceChangeNotifications" in
    if non_null fpUnsubscribeServiceChangeNotifications then
      [ev_LoadLibrary "SecHost.dll";
       ev_GetProcAddress dll "UnsubscribeServiceChangeNotifications";
       ev_Unsubscribe fpUnsubscribeServiceChangeNotifications pSubscription;
       ev_FreeLibrary dll]
    else
      [ev_LoadLibrary "SecHost.dll";
       ev_GetProcAddress dll "UnsubscribeServiceChangeNotifications";
       ev_FreeLibrary dll]
  else [ev_LoadLibrary "SecHost.dll"].

Definition Start_service (scm : SC_HANDLE)
    (m : gmap wstring ServiceData) (name : wstring)
  : gmap wstring ServiceData * list event :=
  let service := OpenService os scm name in
  if non_null service then
    let buffer := wstring_copy name (service_name (subscript m name)) in
    let notify_buffer := Some (addr_notify_buffer name) in
    let '((code, subscription), t_sub) :=
      SubscribeServiceChangeNotifications_wrapper service
        SC_EVENT_STATUS_CHANGE notify_buffer
        (registration (subscript m name)) in
    (<[name :=
         {| service_name := buffer;
            notify_buffer :=
              {| pContext := Some addr_context_;
                 pszServiceNames := Some (addr_service_name name) |};
            registration := subscription;
            system_error_code := code |}]> m,
     [ev_OpenService scm name;
      ev_SubscribeWrapper service SC_EVENT_STATUS_CHANGE notify_buffer]
     ++ t_sub ++ [ev_CloseServiceHandle service])
  else (m, [ev_OpenService scm name]).

Definition Start (this : ServiceStatusChangedNotifier)
    (service_list : list wstring) (notify_mask : DWORD)
    (action_function : ActionFunction)
  : ServiceStatusChangedNotifier * list event :=
  let context :=
    {| notify_mask := notify_mask; action_function := action_function |} in
  let scm := OpenSCManager os in
  if non_null scm then
    let '(m, t) :=
      fold_left
        (fun (acc : gmap wstring ServiceData * list event) (name : wstring) =>
           let '(m', t') := Start_service scm (fst acc) name in
           (m', snd acc ++ t'))
        service_list (service_data_map_ this, []) in
    ({| service_data_map_ := m; context_ := context |},
     [ev_OpenSCManager] ++ t ++ [ev_CloseServiceHandle scm])
  else
    ({| service_data_map_ := service_data_map_ this; context_ := context |},
     [ev_OpenSCManager]).

Definition Stop (this : ServiceStatusChangedNotifier)
  : ServiceStatusChangedNotifier * list event :=
  let '(m, t) :=
    fold_left
      (fun (acc : gmap wstring ServiceData * list event)
           (service_data : wstring * ServiceData) =>
         if non_null (registration (snd service_data)) then
           (<[fst service_data :=
                set_registration nullptr (snd service_data)]> (fst acc),
            snd acc
            ++ ev_UnsubscribeWrapper (registration (snd service_data))
               :: UnsubscribeServiceChangeNotifications_wrapper
                    (registration (snd service_data)))
         else acc)
      (map_to_list (service_data_map_ this)) (service_data_map_ this, []) in
  ({| service_data_map_ := m; context_ := context_ this |}, t).

End Notifier.

End Earlier.

(** ** The demonstration program *)

(** What [OnNotificationActionFunction] writes to the stream, item by item:
    a piece of text, or a [DWORD] (printed as a number). *)
Inductive output_item :=
| out_text (s : string)
| out_number (n : DWORD).

Definition newline : string := String (Ascii.ascii_of_nat 10) EmptyString.

Definition OnNotificationActionFunction (service_name : wstring)
    (current_state : DWORD) : list output_item :=
  [out_text "notification: "; out_text service_name;
   out_text " current state: "; out_number current_state; out_text newline]
  ++ (if current_state =? SERVICE_NOTIFY_STOPPED
      then [out_text "action"; out_text newline]
      else []).

(** The function as an [ActionFunction]: it returns. *)
Definition OnNotificationAction : ActionFunction :=
  Some (fun _ _ => returns).

(** What a run of the callback makes the program write: the output of each
    call of the action it made. *)
Definition written (d : delivery) : list output_item :=
  flat_map (fun call => OnNotificationActionFunction (fst call) (snd call))
           (calls d).

(** The calls of [main]: [Start] on the two services, the wait, [Stop], and
    the destructor of the notifier when [main] returns. *)
Definition main (os : OS) : list event :=
  let service_status_change_notifier := ServiceStatusChangedNotifier_new in
  let '(service_status_change_notifier, t_start) :=
    Start os service_status_change_notifier ["W32Time"; "WebClient"]
      SERVICE_NOTIFY_STOPPED OnNotificationAction in
  let '(service_status_change_notifier, t_stop) :=
    Stop os service_status_change_notifier in
  t_start ++ t_stop ++ destructor os service_status_change_notifier.

(** * Properties of the dispatcher *)

Lemma callable_Some (f : ActionFunction) :
  callable f = true <-> exists target, f = Some target.
Proof.
  destruct f as [target|]; simpl; split; intros H; eauto.
  - discriminate.
  - destruct H as [target H]. discriminate.
Qed.

(** [(n | m) == m] says that every bit of [n] is a bit of [m]. *)
Lemma lor_eq_subset (n m : N) :
  N.lor n m = m <-> forall i, N.testbit n i = true -> N.testbit m i = true.
Proof.
  split.
  - intros H i Hi. rewrite <- H, N.lor_spec, Hi. reflexivity.
  - intros H. apply N.bits_inj. intros i. rewrite N.lor_spec.
    destruct (N.testbit n i) eqn:Hn; [|reflexivity].
    rewrite (H i Hn). reflexivity.
Qed.

(** Zero flags are a subset of every mask, so the disjunct [dwNotify == 0]
    adds nothing to the subset test itself. *)
Lemma zero_flags_subset (m : N) : (N.lor 0 m =? m) = true.
Proof. rewrite N.lor_0_l. apply N.eqb_refl. Qed.

(** With a callable action the condition of the code is the predicate of the
    specification. *)
Lemma notify_condition_callable (context : Context) (dwNotify : DWORD) :
  callable (action_function context) = true ->
  notify_condition context dwNotify = spec_dispatch_predicate context dwNotify.
Proof.
  intros Hc. unfold notify_condition, spec_dispatch_predicate. rewrite Hc.
  simpl. apply orb_comm.
Qed.

(** The two differ exactly on an empty action with zero flags, where the
    code's condition holds. *)
Lemma notify_condition_differs (context : Context) (dwNotify : DWORD) :
  notify_condition context dwNotify <> spec_dispatch_predicate context dwNotify
  <-> action_function context = None /\ dwNotify = 0.
Proof.
  unfold notify_condition, spec_dispatch_predicate.
  destruct (action_function context) as [target|]; simpl.
  - split.
    + intros H. exfalso. apply H. apply orb_comm.
    + intros [H _]. discriminate.
  - destruct (N.eqb_spec dwNotify 0) as [->|Hn]; split.
    + auto.
    + intros _. discriminate.
    + intros H. exfalso. apply H. reflexivity.
    + intros [_ H]. contradiction.
Qed.

(** What the callback does, case by case. *)
Lemma NotifyCallbackFunc_resolved (dwNotify : DWORD) (notify_buffer : NotifyBuffer)
    (context : Context) :
  pContext notify_buffer = Some context ->
  NotifyCallbackFunc dwNotify (Some notify_buffer) =
    if notify_condition context dwNotify then
      {| calls := [(pszServiceNames notify_buffer, dwNotify)];
         result := invoke (action_function context)
                          (pszServiceNames notify_buffer) dwNotify |}
    else dropped.
Proof. intros H. unfold NotifyCallbackFunc. rewrite H. reflexivity. Qed.

Lemma NotifyCallbackFunc_unresolved (dwNotify : DWORD)
    (pCallbackContext : option NotifyBuffer) :
  resolve pCallbackContext = None ->
  NotifyCallbackFunc dwNotify pCallbackContext = dropped.
Proof.
  unfold resolve, NotifyCallbackFunc.
  destruct pCallbackContext as [notify_buffer|]; [|reflexivity].
  intros ->. reflexivity.
Qed.

(** When the call is made: on a resolved context, exactly when the action is
    callable and the flags are a subset of the mask, or the flags are zero. *)
Lemma NotifyCallbackFunc_calls (dwNotify : DWORD) (notify_buffer : NotifyBuffer)
    (context : Context) :
  pContext notify_buffer = Some context ->
  calls (NotifyCallbackFunc dwNotify (Some notify_buffer))
  = [(pszServiceNames notify_buffer, dwNotify)]
  <-> (callable (action_function context) = true
       /\ N.lor dwNotify (notify_mask context) = notify_mask context)
      \/ dwNotify = 0.
Proof.
  intros Hr. rewrite (NotifyCallbackFunc_resolved _ _ _ Hr).
  unfold notify_condition.
  destruct (callable (action_function context));
    destruct (N.eqb_spec (N.lor dwNotify (notify_mask context))
                         (notify_mask context)) as [Hs|Hs];
    destruct (N.eqb_spec dwNotify 0) as [Hz|Hz]; simpl;
    split; intros H; auto; try discriminate;
    destruct H as [[H1 H2]|H]; auto; try discriminate; contradiction.
Qed.

(** With the action present this is the dispatch rule of the specification:
    the call is made exactly when the flags are zero or a subset of the
    mask, with the name of the entry and the flags as they came. *)
Lemma NotifyCallbackFunc_calls_present (dwNotify : DWORD)
    (notify_buffer : NotifyBuffer) (context : Context)
    (target : wstring -> DWORD -> completion) :
  pContext notify_buffer = Some context ->
  action_function context = Some target ->
  calls (NotifyCallbackFunc dwNotify (Some notify_buffer))
  = [(pszServiceNames notify_buffer, dwNotify)]
  <-> dwNotify = 0 \/ N.lor dwNotify (notify_mask context) = notify_mask context.
Proof.
  intros Hr Ha. rewrite (NotifyCallbackFunc_calls _ _ _ Hr), Ha. simpl.
  split; [intros [[_ H]|H]; auto|intros [H|H]; auto].
Qed.

(** C1: the callback is to be called only when the action is present.  On
    zero flags with an empty action function the code calls it all the same:
    for every mask and every name, the call is made, on an empty
    [std::function], and the run ends in [std::bad_function_call]. *)
Theorem NotifyCallbackFunc_zero_flags_empty_action (mask : DWORD) (name : wstring) :
  spec_dispatch_predicate
    {| notify_mask := mask; action_function := None |} 0 = false
  /\ NotifyCallbackFunc 0 (Some (buffer_for name mask None)) =
       {| calls := [(name, 0)]; result := throws bad_function_call |}.
Proof. split; reflexivity. Qed.

(** C3, as stated, fails: a failure of the action crosses the callback. *)
Lemma NotifyCallbackFunc_lets_failure_escape :
  result (NotifyCallbackFunc SERVICE_NOTIFY_STOPPED
            (Some (buffer_for "Alpha" SERVICE_NOTIFY_STOPPED throwing_action)))
  <> returns.
Proof. vm_compute. discriminate. Qed.

(** C3, amended: a notification whose context does not resolve is dropped;
    with an empty action and flags that are not zero no call is made and the
    run returns; with an action present the run makes at most the one call
    and ends exactly as that call ends: the callback adds no failure of its
    own and contains none of the action's. *)
Theorem NotifyCallbackFunc_failures (dwNotify : DWORD)
    (pCallbackContext : option NotifyBuffer) :
  match pCallbackContext, resolve pCallbackContext with
  | Some notify_buffer, Some context =>
      match action_function context with
      | Some target =>
          NotifyCallbackFunc dwNotify pCallbackContext =
            if (dwNotify =? 0)
               || (N.lor dwNotify (notify_mask context) =? notify_mask context)
            then {| calls := [(pszServiceNames notify_buffer, dwNotify)];
                    result := target (pszServiceNames notify_buffer) dwNotify |}
            else dropped
      | None =>
          dwNotify <> 0 -> NotifyCallbackFunc dwNotify pCallbackContext = dropped
      end
  | _, _ => NotifyCallbackFunc dwNotify pCallbackContext = dropped
  end.
Proof.
  destruct pCallbackContext as [notify_buffer|]; [|reflexivity].
  destruct (resolve (Some notify_buffer)) as [context|] eqn:Hr.
  - simpl in Hr. rewrite (NotifyCallbackFunc_resolved _ _ _ Hr).
    unfold notify_condition.
    destruct (action_function context) as [target|]; simpl.
    + rewrite orb_comm. reflexivity.
    + intros Hn. apply N.eqb_neq in Hn. rewrite Hn. reflexivity.
  - apply NotifyCallbackFunc_unresolved, Hr.
Qed.

(** * Properties of Stop *)

Section StopProperties.

Variable os : OS.

Lemma unsubscribe_requests_app (t1 t2 : list event) :
  unsubscribe_requests (t1 ++ t2)
  = unsubscribe_requests t1 ++ unsubscribe_requests t2.
Proof.
  induction t1 as [|e t1 IH]; [reflexivity|].
  destruct e; simpl; rewrite IH; reflexivity.
Qed.

Lemma unsubscribed_app (t1 t2 : list event) :
  unsubscribed (t1 ++ t2) = unsubscribed t1 ++ unsubscribed t2.
Proof.
  induction t1 as [|e t1 IH]; [reflexivity|].
  destruct e; simpl; rewrite IH; reflexivity.
Qed.

Lemma dll_deleter_requests (dll : HINSTANCE) :
  unsubscribe_requests (dll_deleter dll) = []
  /\ unsubscribed (dll_deleter dll) = [].
Proof. unfold dll_deleter. destruct (non_null dll); split; reflexivity. Qed.

(** The wrapper of the cancel primitive calls no wrapper itself, and reaches
    the primitive, once and with its argument, exactly when the primitive
    resolves. *)
Lemma UnsubscribeWrapper_requests (r : PSC_NOTIFICATION_REGISTRATION) :
  unsubscribe_requests (UnsubscribeServiceChangeNotificationsWrapper os r) = [].
Proof.
  unfold UnsubscribeServiceChangeNotificationsWrapper, ScopedDllHandle.
  destruct (non_null (LoadLibrary os "SecHost.dll"));
    [destruct (non_null (GetProcAddress os _ _))|];
    repeat (rewrite unsubscribe_requests_app; simpl);
    apply dll_deleter_requests.
Qed.

Lemma UnsubscribeWrapper_unsubscribed (r : PSC_NOTIFICATION_REGISTRATION) :
  unsubscribed (UnsubscribeServiceChangeNotificationsWrapper os r)
  = if unsubscribe_resolves os then [r] else [].
Proof.
  unfold UnsubscribeServiceChangeNotificationsWrapper, ScopedDllHandle,
    unsubscribe_resolves.
  destruct (non_null (LoadLibrary os "SecHost.dll"));
    [destruct (non_null (GetProcAddress os _ _))|];
    repeat (rewrite unsubscribed_app; simpl);
    rewrite (proj2 (dll_deleter_requests _)); reflexivity.
Qed.

(** One value: what the body of the loop leaves and asks. *)
Lemma Stop_value_registration (value : ServiceData) :
  registration (fst (Stop_value os value)) = nullptr.
Proof.
  unfold Stop_value.
  destruct (non_null (registration value)) eqn:Hr; simpl; [reflexivity|].
  unfold non_null in Hr. apply negb_false_iff, N.eqb_eq in Hr. exact Hr.
Qed.

Lemma Stop_value_requests (value : ServiceData) :
  unsubscribe_requests (snd (Stop_value os value))
  = if non_null (registration value) then [registration value] else [].
Proof.
  unfold Stop_value. destruct (non_null (registration value)); simpl;
    [rewrite UnsubscribeWrapper_requests|]; reflexivity.
Qed.

Lemma Stop_value_unsubscribed (value : ServiceData) :
  unsubscribed (snd (Stop_value os value))
  = if non_null (registration value) && unsubscribe_resolves os
    then [registration value] else [].
Proof.
  unfold Stop_value. destruct (non_null (registration value)); simpl;
    [apply UnsubscribeWrapper_unsubscribed|reflexivity].
Qed.

Lemma Stop_value_inactive (value : ServiceData) :
  non_null (registration value) = false -> Stop_value os value = (value, []).
Proof. intros H. unfold Stop_value. rewrite H. reflexivity. Qed.

Lemma non_null_nullptr : non_null nullptr = false.
Proof. reflexivity. Qed.

(** Running the body again on what it left does nothing. *)
Lemma Stop_value_twice (value : ServiceData) :
  Stop_value os (fst (Stop_value os value)) = (fst (Stop_value os value), []).
Proof.
  apply Stop_value_inactive. rewrite Stop_value_registration.
  apply non_null_nullptr.
Qed.

(** The loop, with its two accumulators taken apart. *)
Lemma Stop_loop_fold (entries : list (wstring * ServiceData))
    (m : gmap wstring ServiceData) (t : list event) :
  fold_left
    (fun (acc : gmap wstring ServiceData * list event)
         (entry : wstring * ServiceData) =>
       let '(value', t') := Stop_value os (snd entry) in
       (<[fst entry := value']> (fst acc), snd acc ++ t'))
    entries (m, t)
  = (fold_left (fun acc entry =>
                  <[fst entry := fst (Stop_value os (snd entry))]> acc)
               entries m,
     t ++ flat_map (fun entry => snd (Stop_value os (snd entry))) entries).
Proof.
  revert m t. induction entries as [|entry entries IH]; intros m t; simpl.
  - rewrite app_nil_r. reflexivity.
  - destruct (Stop_value os (snd entry)) as [value' t'] eqn:Hv. simpl.
    rewrite IH, app_assoc. reflexivity.
Qed.

(** Writing [f value] back under each key of a list without repeated keys. *)
Lemma fold_insert_lookup (f : ServiceData -> ServiceData)
    (entries : list (wstring * ServiceData)) (m : gmap wstring ServiceData)
    (k : wstring) :
  NoDup (entries.*1) ->
  fold_left (fun acc entry => <[fst entry := f (snd entry)]> acc) entries m !! k
  = match (list_to_map entries : gmap wstring ServiceData) !! k with
    | Some value => Some (f value)
    | None => m !! k
    end.
Proof.
  revert m. induction entries as [|[k' v'] entries IH]; intros m Hnd; simpl.
  - rewrite lookup_empty. reflexivity.
  - apply NoDup_cons in Hnd as [Hk' Hnd]. rewrite (IH _ Hnd).
    destruct (decide (k' = k)) as [->|Hne].
    + rewrite !lookup_insert_eq.
      rewrite (not_elem_of_list_to_map_1 entries k Hk'). reflexivity.
    + rewrite !lookup_insert_ne by exact Hne. reflexivity.
Qed.

(** [Stop] in closed form: every value goes through the body of the loop,
    and the calls are those of the values in the map's order. *)
Lemma Stop_closed_form (this : ServiceStatusChangedNotifier) :
  Stop os this
  = ({| service_data_map_ :=
          (fun value => fst (Stop_value os value)) <$> service_data_map_ this;
        context_ := context_ this |},
     flat_map (fun entry => snd (Stop_value os (snd entry)))
              (map_to_list (service_data_map_ this))).
Proof.
  unfold Stop, Stop_loop. rewrite Stop_loop_fold. simpl. f_equal. f_equal.
  apply map_eq. intros k.
  rewrite (fold_insert_lookup (fun value => fst (Stop_value os value)))
    by apply NoDup_fst_map_to_list.
  rewrite list_to_map_to_list, lookup_fmap.
  destruct (service_data_map_ this !! k); reflexivity.
Qed.

Lemma requests_of_entries (entries : list (wstring * ServiceData)) :
  unsubscribe_requests
    (flat_map (fun entry => snd (Stop_value os (snd entry))) entries)
  = List.filter non_null
      (List.map (fun entry => registration (snd entry)) entries).
Proof.
  induction entries as [|entry entries IH]; [reflexivity|]. simpl.
  rewrite unsubscribe_requests_app, Stop_value_requests, IH.
  destruct (non_null (registration (snd entry))); reflexivity.
Qed.

Lemma unsubscribed_of_entries (entries : list (wstring * ServiceData)) :
  unsubscribed
    (flat_map (fun entry => snd (Stop_value os (snd entry))) entries)
  = if unsubscribe_resolves os
    then List.filter non_null
           (List.map (fun entry => registration (snd entry)) entries)
    else [].
Proof.
  induction entries as [|entry entries IH]; simpl.
  - destruct (unsubscribe_resolves os); reflexivity.
  - rewrite unsubscribed_app, Stop_value_unsubscribed, IH.
    destruct (non_null (registration (snd entry))),
      (unsubscribe_resolves os); reflexivity.
Qed.

Lemma Stop_requests (this : ServiceStatusChangedNotifier) :
  unsubscribe_requests (snd (Stop os this))
  = live_registrations (service_data_map_ this).
Proof. rewrite Stop_closed_form. apply requests_of_entries. Qed.

Lemma Stop_unsubscribed (this : ServiceStatusChangedNotifier) :
  unsubscribed (snd (Stop os this))
  = if unsubscribe_resolves os
    then live_registrations (service_data_map_ this) else [].
Proof. rewrite Stop_closed_form. apply unsubscribed_of_entries. Qed.

Lemma Stop_lookup (this : ServiceStatusChangedNotifier) (k : wstring) :
  service_data_map_ (fst (Stop os this)) !! k
  = (fun value => fst (Stop_value os value)) <$> service_data_map_ this !! k.
Proof. rewrite Stop_closed_form. simpl. apply lookup_fmap. Qed.

Lemma no_requests_of_inactive (entries : list (wstring * ServiceData)) :
  Forall (fun entry => registration (snd entry) = nullptr) entries ->
  flat_map (fun entry => snd (Stop_value os (snd entry))) entries = []
  /\ List.filter non_null
       (List.map (fun entry => registration (snd entry)) entries) = [].
Proof.
  induction 1 as [|entry entries Hr _ [IH1 IH2]]; [split; reflexivity|].
  simpl. rewrite Stop_value_inactive, IH1, Hr by (rewrite Hr; reflexivity).
  split; [reflexivity|exact IH2].
Qed.

Lemma live_registrations_elem (m : gmap wstring ServiceData) (k : wstring)
    (value : ServiceData) :
  m !! k = Some value -> registration value <> nullptr ->
  In (registration value) (live_registrations m).
Proof.
  intros Hk Hr. unfold live_registrations. apply filter_In. split.
  - apply in_map_iff. exists (k, value). split; [reflexivity|].
    apply list_elem_of_In, elem_of_map_to_list, Hk.
  - unfold non_null. apply negb_true_iff, N.eqb_neq, Hr.
Qed.

Lemma live_registrations_nil (m : gmap wstring ServiceData) :
  live_registrations m = [] <->
  forall k value, m !! k = Some value -> registration value = nullptr.
Proof.
  split.
  - intros H k value Hk.
    destruct (N.eq_dec (registration value) nullptr) as [Hr|Hr]; [exact Hr|].
    pose proof (live_registrations_elem m k value Hk Hr) as Hin.
    rewrite H in Hin. destruct Hin.
  - intros H. apply no_requests_of_inactive, Forall_forall.
    intros [k value] Hin. apply (H k).
    apply elem_of_map_to_list. exact Hin.
Qed.

Lemma Stop_inactive (this : ServiceStatusChangedNotifier) :
  live_registrations (service_data_map_ this) = [] -> Stop os this = (this, []).
Proof.
  intros H. rewrite Stop_closed_form. destruct this as [m context]. simpl in *.
  pose proof (proj1 (live_registrations_nil m) H) as Hall.
  f_equal.
  - f_equal. apply map_eq. intros k. rewrite lookup_fmap.
    destruct (m !! k) as [value|] eqn:Hk; [|reflexivity]. simpl.
    rewrite Stop_value_inactive; [reflexivity|].
    rewrite (Hall k value Hk). reflexivity.
  - apply no_requests_of_inactive, Forall_forall.
    intros [k value] Hin. apply (Hall k).
    apply elem_of_map_to_list. exact Hin.
Qed.

Lemma Stop_leaves_null (this : ServiceStatusChangedNotifier) (k : wstring)
    (value : ServiceData) :
  service_data_map_ (fst (Stop os this)) !! k = Some value ->
  registration value = nullptr.
Proof.
  rewrite Stop_lookup. destruct (service_data_map_ this !! k) as [old|];
    simpl; [|discriminate].
  intros [= <-]. apply Stop_value_registration.
Qed.

Lemma Stop_leaves_none_live (this : ServiceStatusChangedNotifier) :
  live_registrations (service_data_map_ (fst (Stop os this))) = [].
Proof. apply live_registrations_nil. apply Stop_leaves_null. Qed.

(** C2, amended: after [Stop] no entry holds a registration handle.  Every
    entry that held one has been handed to the cancel wrapper, once, with the
    handle it held, and holds null afterwards (its other fields are kept);
    the wrapper is called for nothing else.  The calls reach
    [UnsubscribeServiceChangeNotifications] itself exactly when the
    primitive resolves: then it is asked to cancel every handle that was
    held, and otherwise none, the handles being cleared all the same.  This
    holds for every map, whatever registrations succeeded before. *)
Theorem Stop_cancels_every_registration (this : ServiceStatusChangedNotifier) :
  (forall k value,
      service_data_map_ (fst (Stop os this)) !! k = Some value ->
      registration value = nullptr)
  /\ live_registrations (service_data_map_ (fst (Stop os this))) = []
  /\ (forall k value,
        service_data_map_ this !! k = Some value ->
        registration value <> nullptr ->
        In (registration value) (unsubscribe_requests (snd (Stop os this)))
        /\ service_data_map_ (fst (Stop os this)) !! k
           = Some (set_registration nullptr value))
  /\ unsubscribe_requests (snd (Stop os this))
     = live_registrations (service_data_map_ this)
  /\ unsubscribed (snd (Stop os this))
     = if unsubscribe_resolves os
       then live_registrations (service_data_map_ this) else [].
Proof.
  split; [apply Stop_leaves_null|].
  split; [apply Stop_leaves_none_live|].
  split; [|split; [apply Stop_requests|apply Stop_unsubscribed]].
  intros k value Hk Hr. split.
  - rewrite Stop_requests. apply (live_registrations_elem _ k), Hr. exact Hk.
  - rewrite Stop_lookup, Hk. simpl. unfold Stop_value.
    assert (Hn : non_null (registration value) = true)
      by (unfold non_null; apply negb_true_iff, N.eqb_neq, Hr).
    rewrite Hn. reflexivity.
Qed.

(** C6: [Stop] on a notifier without an active registration changes nothing
    and makes no call; and a second [Stop] right after a first changes
    nothing and makes no call, for every notifier. *)
Theorem Stop_idempotent (this : ServiceStatusChangedNotifier) :
  (live_registrations (service_data_map_ this) = [] ->
   Stop os this = (this, []))
  /\ Stop os (fst (Stop os this)) = (fst (Stop os this), [])
  /\ unsubscribe_requests (snd (Stop os (fst (Stop os this)))) = []
  /\ unsubscribed (snd (Stop os (fst (Stop os this)))) = [].
Proof.
  assert (H2 : Stop os (fst (Stop os this)) = (fst (Stop os this), []))
    by apply Stop_inactive, Stop_leaves_none_live.
  split; [apply Stop_inactive|]. split; [exact H2|].
  rewrite H2. split; reflexivity.
Qed.

(** C8, amended: the destructor makes the calls of [Stop] and no other, so
    its cancellation behaviour is that of an explicit [Stop] on the same
    state: every handle an entry holds is handed to the cancel wrapper, and
    [UnsubscribeServiceChangeNotifications] itself is asked to cancel
    exactly these handles when the primitive resolves, and none when it
    does not.  After an explicit [Stop] the destructor has nothing left to
    cancel.  (Nothing is said of a handle that no entry holds any more.) *)
Theorem destructor_cancels_as_Stop (this : ServiceStatusChangedNotifier) :
  destructor os this = snd (Stop os this)
  /\ cancellation_behaviour (destructor os this)
     = cancellation_behaviour (snd (Stop os this))
  /\ unsubscribe_requests (destructor os this)
     = live_registrations (service_data_map_ this)
  /\ unsubscribed (destructor os this)
     = (if unsubscribe_resolves os
        then live_registrations (service_data_map_ this) else [])
  /\ destructor os (fst (Stop os this)) = [].
Proof.
  assert (H : destructor os this = snd (Stop os this)).
  { unfold destructor. destruct (Stop os this). reflexivity. }
  split; [exact H|]. rewrite H.
  split; [reflexivity|]. split; [apply Stop_requests|].
  split; [apply Stop_unsubscribed|].
  unfold destructor.
  rewrite (Stop_inactive (fst (Stop os this)) (Stop_leaves_none_live this)).
  reflexivity.
Qed.

End StopProperties.

(** C2, as stated, fails: where [SecHost.dll] does not load, [Stop] clears
    the handle of [Alpha] without the cancel primitive being asked for it,
    or for any handle. *)
Lemma Stop_clears_without_cancelling :
  (exists value,
      service_data_map_ started_demo !! "Alpha" = Some value
      /\ registration value = 1010)
  /\ (exists value,
        service_data_map_ (fst (Stop os_no_dll started_demo)) !! "Alpha"
        = Some value
        /\ registration value = nullptr)
  /\ ~ In 1010 (unsubscribed (snd (Stop os_no_dll started_demo))).
Proof.
  split; [|split].
  - eexists. split; vm_compute; reflexivity.
  - eexists. split; vm_compute; reflexivity.
  - vm_compute. intros [].
Qed.

(** C8, as stated, fails: registrations outlive the notifier.  Where the
    cancel primitive does not resolve, the destructor cancels none of the
    handles the entries hold; and a handle that a later [Start] overwrote
    is not even handed to the cancel wrapper. *)
Lemma destructor_leaves_registrations :
  In 1010 (live_registrations (service_data_map_ started_demo))
  /\ ~ In 1010 (unsubscribed (destructor os_no_symbol started_demo))
  /\ ~ In 1010
         (unsubscribe_requests
            (snd (Start os_later started_demo ["Alpha"] SERVICE_NOTIFY_STOPPED
                    quiet_action)
             ++ destructor os_later
                  (fst (Start os_later started_demo ["Alpha"]
                          SERVICE_NOTIFY_STOPPED quiet_action)))).
Proof.
  split; [|split].
  - vm_compute. right. left. reflexivity.
  - vm_compute. intros [].
  - vm_compute. intros [H|[H|[]]]; discriminate.
Qed.

(** * Properties of the binding shim *)

Section ShimProperties.

Variable os : OS.

(** The wrapper clears [*pSubscription] before anything else, so what the
    caller's variable held does not matter. *)
Lemma SubscribeWrapper_ignores_old_handle
    (hService : SC_HANDLE) (eEventType : SC_EVENT_TYPE)
    (pCallbackContext : PVOID) (pSubscription : PSC_NOTIFICATION_REGISTRATION) :
  SubscribeServiceChangeNotificationsWrapper os hService eEventType
    pCallbackContext pSubscription
  = SubscribeServiceChangeNotificationsWrapper os hService eEventType
      pCallbackContext nullptr.
Proof. reflexivity. Qed.

Lemma non_null_true (h : HANDLE) : non_null h = true <-> h <> nullptr.
Proof. unfold non_null. rewrite negb_true_iff. apply N.eqb_neq. Qed.

Lemma non_null_false (h : HANDLE) : non_null h = false <-> h = nullptr.
Proof. unfold non_null. rewrite negb_false_iff. apply N.eqb_eq. Qed.

(** C7: the three exits of the subscribe wrapper.  When [SecHost.dll] does
    not load, the result is the last error code with a null handle; when it
    loads but the symbol does not resolve, a zero code with a null handle;
    when both succeed, the status and the handle of the primitive, called
    with the wrapper's arguments on a cleared [*pSubscription]. *)
Theorem SubscribeWrapper_results
    (hService : SC_HANDLE) (eEventType : SC_EVENT_TYPE)
    (pCallbackContext : PVOID) (pSubscription : PSC_NOTIFICATION_REGISTRATION) :
  (LoadLibrary os "SecHost.dll" = nullptr ->
   fst (SubscribeServiceChangeNotificationsWrapper os hService eEventType
          pCallbackContext pSubscription)
   = (GetLastError os, nullptr))
  /\ (LoadLibrary os "SecHost.dll" <> nullptr ->
      GetProcAddress os (LoadLibrary os "SecHost.dll")
        "SubscribeServiceChangeNotifications" = nullptr ->
      fst (SubscribeServiceChangeNotificationsWrapper os hService eEventType
             pCallbackContext pSubscription)
      = (0, nullptr))
  /\ (LoadLibrary os "SecHost.dll" <> nullptr ->
      GetProcAddress os (LoadLibrary os "SecHost.dll")
        "SubscribeServiceChangeNotifications" <> nullptr ->
      fst (SubscribeServiceChangeNotificationsWrapper os hService eEventType
             pCallbackContext pSubscription)
      = SubscribeServiceChangeNotifications os
          (GetProcAddress os (LoadLibrary os "SecHost.dll")
             "SubscribeServiceChangeNotifications")
          hService eEventType pCallbackContext nullptr).
Proof.
  unfold SubscribeServiceChangeNotificationsWrapper, ScopedDllHandle.
  repeat split.
  - intros Hdll. apply non_null_false in Hdll. rewrite Hdll. reflexivity.
  - intros Hdll Haddr. apply non_null_true in Hdll.
    apply non_null_false in Haddr. rewrite Hdll, Haddr. reflexivity.
  - intros Hdll Haddr. apply non_null_true in Hdll.
    apply non_null_true in Haddr. rewrite Hdll, Haddr.
    destruct (SubscribeServiceChangeNotifications os _ _ _ _ _).
    reflexivity.
Qed.

End ShimProperties.

Lemma SubscribeWrapper_results_witness :
  fst (SubscribeServiceChangeNotificationsWrapper os_no_dll 10
         SC_EVENT_STATUS_CHANGE (Some (addr_notify_buffer "Alpha")) 7)
  = (126, nullptr)
  /\ fst (SubscribeServiceChangeNotificationsWrapper os_no_symbol 10
            SC_EVENT_STATUS_CHANGE (Some (addr_notify_buffer "Alpha")) 7)
     = (0, nullptr)
  /\ fst (SubscribeServiceChangeNotificationsWrapper os_demo 10
            SC_EVENT_STATUS_CHANGE (Some (addr_notify_buffer "Alpha")) 7)
     = (ERROR_SUCCESS, 1010).
Proof.
  split; [|split].
  - apply (proj1 (SubscribeWrapper_results os_no_dll 10
                    SC_EVENT_STATUS_CHANGE (Some (addr_notify_buffer "Alpha")) 7)).
    reflexivity.
  - apply (proj1 (proj2 (SubscribeWrapper_results os_no_symbol 10
                    SC_EVENT_STATUS_CHANGE (Some (addr_notify_buffer "Alpha")) 7))).
    + discriminate.
    + reflexivity.
  - apply (proj2 (proj2 (SubscribeWrapper_results os_demo 10
                    SC_EVENT_STATUS_CHANGE (Some (addr_notify_buffer "Alpha")) 7)));
      discriminate.
Defined.

(** * Properties of Start *)

(** ** The name buffer *)

Lemma string_length_append (s r : string) :
  String.length (s ++ r)%string = (String.length s + String.length r)%nat.
Proof. induction s as [|c s IH]; simpl; [reflexivity|]. rewrite IH. reflexivity. Qed.

Lemma substring_after_prefix (s r : string) (n : nat) :
  String.substring (String.length s) n (s ++ r)%string = String.substring 0 n r.
Proof. induction s as [|c s IH]; simpl; [reflexivity|exact IH]. Qed.

Lemma substring_whole (r : string) :
  String.substring 0 (String.length r) r = r.
Proof. induction r as [|c r IH]; simpl; [reflexivity|]. rewrite IH. reflexivity. Qed.

(** Copying a name over a buffer that already starts with it changes
    nothing. *)
Lemma wstring_copy_again (src dest : wstring) :
  wstring_copy src (wstring_copy src dest) = wstring_copy src dest.
Proof.
  unfold wstring_copy at 1 3.
  set (rest := String.substring (String.length src)
                 (String.length dest - String.length src) dest).
  unfold wstring_copy. fold rest.
  rewrite substring_after_prefix, string_length_append.
  replace (String.length src + String.length rest - String.length src)%nat
    with (String.length rest) by lia.
  rewrite substring_whole. reflexivity.
Qed.

(** Copying a name into an empty buffer gives the name. *)
Lemma wstring_copy_empty (src : wstring) : wstring_copy src "" = src.
Proof.
  unfold wstring_copy.
  assert (H : forall n k, String.substring n k "" = ""%string)
    by (intros [|n] [|k]; reflexivity).
  rewrite H. induction src as [|c src IH]; [reflexivity|].
  change (String c (src ++ "")%string = String c src). f_equal. exact IH.
Qed.

Section StartProperties.

Variable os : OS.

(** ** One service *)

Lemma Start_service_lookup_ne (scm : SC_HANDLE) (m : gmap wstring ServiceData)
    (name k : wstring) :
  k <> name -> fst (Start_service os scm m name) !! k = m !! k.
Proof.
  intros Hne. unfold Start_service.
  destruct (non_null (OpenService os scm name)); [|reflexivity].
  destruct (SubscribeServiceChangeNotificationsWrapper os _ _ _ _)
    as [[code subscription] t_sub].
  simpl. apply lookup_insert_ne. congruence.
Qed.

(** The entry of the processed name: untouched when the service does not
    open, rewritten from the wrapper's result when it does. *)
Lemma Start_service_lookup_eq (scm : SC_HANDLE) (m : gmap wstring ServiceData)
    (name : wstring) :
  fst (Start_service os scm m name) !! name
  = if non_null (OpenService os scm name) then
      Some {| service_name := wstring_copy name (service_name (subscript m name));
              notify_buffer :=
                {| pContext := Some addr_context_;
                   pszServiceNames := Some (addr_service_name name) |};
              registration :=
                snd (fst (SubscribeServiceChangeNotificationsWrapper os
                            (OpenService os scm name) SC_EVENT_STATUS_CHANGE
                            (Some (addr_notify_buffer name)) nullptr));
              system_error_code :=
                fst (fst (SubscribeServiceChangeNotificationsWrapper os
                            (OpenService os scm name) SC_EVENT_STATUS_CHANGE
                            (Some (addr_notify_buffer name)) nullptr)) |}
    else m !! name.
Proof.
  unfold Start_service.
  destruct (non_null (OpenService os scm name)); [|reflexivity].
  rewrite (SubscribeWrapper_ignores_old_handle os _ _ _
             (registration (subscript m name))).
  destruct (SubscribeServiceChangeNotificationsWrapper os _ _ _ _)
    as [[code subscription] t_sub].
  simpl. apply lookup_insert_eq.
Qed.

(** The entry written depends on the map only through the entry of the
    name. *)
Lemma Start_service_local (scm : SC_HANDLE) (m1 m2 : gmap wstring ServiceData)
    (name : wstring) :
  m1 !! name = m2 !! name ->
  fst (Start_service os scm m1 name) !! name
  = fst (Start_service os scm m2 name) !! name.
Proof.
  intros H. rewrite !Start_service_lookup_eq. unfold subscript. rewrite H.
  reflexivity.
Qed.

(** Processing a name a second time leaves its entry as the first time left
    it. *)
Lemma Start_service_again (scm : SC_HANDLE) (m : gmap wstring ServiceData)
    (name : wstring) :
  fst (Start_service os scm (fst (Start_service os scm m name)) name) !! name
  = fst (Start_service os scm m name) !! name.
Proof.
  rewrite (Start_service_lookup_eq scm (fst (Start_service os scm m name))).
  unfold subscript at 1. rewrite !Start_service_lookup_eq.
  destruct (non_null (OpenService os scm name)); [|reflexivity].
  simpl. rewrite wstring_copy_again. reflexivity.
Qed.

(** ** The loop *)

Lemma Start_loop_acc (scm : SC_HANDLE) (service_list : list wstring)
    (m : gmap wstring ServiceData) (t : list event) :
  fold_left
    (fun (acc : gmap wstring ServiceData * list event) (name : wstring) =>
       let '(m', t') := Start_service os scm (fst acc) name in
       (m', snd acc ++ t'))
    service_list (m, t)
  = (fst (Start_loop os scm service_list m),
     t ++ snd (Start_loop os scm service_list m)).
Proof.
  unfold Start_loop. revert m t.
  induction service_list as [|name l IH]; intros m t; simpl.
  - rewrite app_nil_r. reflexivity.
  - destruct (Start_service os scm m name) as [m1 t1]. simpl.
    rewrite (IH m1 (t ++ t1)), (IH m1 t1). simpl.
    rewrite app_assoc. reflexivity.
Qed.

Lemma Start_loop_nil (scm : SC_HANDLE) (m : gmap wstring ServiceData) :
  Start_loop os scm [] m = (m, []).
Proof. reflexivity. Qed.

Lemma Start_loop_cons (scm : SC_HANDLE) (name : wstring)
    (service_list : list wstring) (m : gmap wstring ServiceData) :
  Start_loop os scm (name :: service_list) m
  = (fst (Start_loop os scm service_list (fst (Start_service os scm m name))),
     snd (Start_service os scm m name)
     ++ snd (Start_loop os scm service_list (fst (Start_service os scm m name)))).
Proof.
  unfold Start_loop at 1. simpl.
  destruct (Start_service os scm m name) as [m1 t1]. simpl.
  apply Start_loop_acc.
Qed.

(** A name that is not in the list keeps its entry, or its absence. *)
Lemma Start_loop_lookup_notin (scm : SC_HANDLE) (service_list : list wstring)
    (m : gmap wstring ServiceData) (name : wstring) :
  name ∉ service_list ->
  fst (Start_loop os scm service_list m) !! name = m !! name.
Proof.
  revert m. induction service_list as [|a l IH]; intros m Hnot.
  - reflexivity.
  - apply not_elem_of_cons in Hnot as [Hne Hnot].
    rewrite Start_loop_cons. simpl. rewrite (IH _ Hnot).
    apply Start_service_lookup_ne, Hne.
Qed.

(** A name in the list ends with the entry that processing it alone gives,
    wherever and however often it occurs. *)
Lemma Start_loop_lookup_in (scm : SC_HANDLE) (service_list : list wstring)
    (m : gmap wstring ServiceData) (name : wstring) :
  name ∈ service_list ->
  fst (Start_loop os scm service_list m) !! name
  = fst (Start_service os scm m name) !! name.
Proof.
  revert m. induction service_list as [|a l IH]; intros m Hin.
  - apply elem_of_nil in Hin. destruct Hin.
  - rewrite Start_loop_cons. simpl.
    destruct (decide (name ∈ l)) as [Hl|Hl].
    + rewrite (IH _ Hl). destruct (decide (name = a)) as [->|Hne].
      * apply Start_service_again.
      * apply Start_service_local, Start_service_lookup_ne, Hne.
    + apply elem_of_cons in Hin as [->|Hin]; [|contradiction].
      apply Start_loop_lookup_notin, Hl.
Qed.

(** ** The calls of Start *)

Lemma processing_steps_app (t1 t2 : list event) :
  processing_steps (t1 ++ t2) = processing_steps t1 ++ processing_steps t2.
Proof.
  induction t1 as [|e t1 IH]; [reflexivity|].
  destruct e as [| | | | | | |? ? [[]|]| | |]; simpl; rewrite IH; reflexivity.
Qed.

(** The subscribe wrapper opens no service, calls no wrapper and cancels
    nothing. *)
Lemma SubscribeWrapper_calls (hService : SC_HANDLE) (eEventType : SC_EVENT_TYPE)
    (pCallbackContext : PVOID) (pSubscription : PSC_NOTIFICATION_REGISTRATION) :
  let t := snd (SubscribeServiceChangeNotificationsWrapper os hService
                  eEventType pCallbackContext pSubscription) in
  processing_steps t = [] /\ unsubscribe_requests t = [] /\ unsubscribed t = [].
Proof.
  unfold SubscribeServiceChangeNotificationsWrapper, ScopedDllHandle, dll_deleter.
  destruct (non_null (LoadLibrary os "SecHost.dll"));
    [destruct (non_null (GetProcAddress os _ _));
     [destruct (SubscribeServiceChangeNotifications os _ _ _ _ _)|]|];
    simpl; repeat split; reflexivity.
Qed.

Lemma SCHandleCloser_calls (handle : SC_HANDLE) :
  processing_steps (SCHandleCloser handle) = []
  /\ unsubscribe_requests (SCHandleCloser handle) = []
  /\ unsubscribed (SCHandleCloser handle) = [].
Proof. unfold SCHandleCloser. destruct (non_null handle); repeat split; reflexivity. Qed.

Lemma Start_service_calls (scm : SC_HANDLE) (m : gmap wstring ServiceData)
    (name : wstring) :
  let t := snd (Start_service os scm m name) in
  processing_steps t = steps_of os scm name
  /\ unsubscribe_requests t = [] /\ unsubscribed t = [].
Proof.
  unfold Start_service, steps_of.
  destruct (non_null (OpenService os scm name)).
  - pose proof (SubscribeWrapper_calls (OpenService os scm name)
                  SC_EVENT_STATUS_CHANGE (Some (addr_notify_buffer name))
                  (registration (subscript m name))) as (Hp & Hu & Hs).
    destruct (SubscribeServiceChangeNotificationsWrapper os _ _ _ _)
      as [[code subscription] t_sub].
    destruct (SCHandleCloser_calls (OpenService os scm name)) as (Hp' & Hu' & Hs').
    simpl in *.
    rewrite processing_steps_app, unsubscribe_requests_app, unsubscribed_app.
    rewrite Hp, Hu, Hs, Hp', Hu', Hs'. repeat split; reflexivity.
  - destruct (SCHandleCloser_calls (OpenService os scm name)) as (Hp' & Hu' & Hs').
    simpl. rewrite Hp', Hu', Hs'. repeat split; reflexivity.
Qed.

Lemma Start_loop_calls (scm : SC_HANDLE) (service_list : list wstring)
    (m : gmap wstring ServiceData) :
  let t := snd (Start_loop os scm service_list m) in
  processing_steps t = flat_map (steps_of os scm) service_list
  /\ unsubscribe_requests t = [] /\ unsubscribed t = [].
Proof.
  revert m. induction service_list as [|name l IH]; intros m.
  - repeat split; reflexivity.
  - rewrite Start_loop_cons. simpl.
    destruct (Start_service_calls scm m name) as (Hp & Hu & Hs).
    destruct (IH (fst (Start_service os scm m name))) as (Hp' & Hu' & Hs').
    rewrite processing_steps_app, unsubscribe_requests_app, unsubscribed_app.
    rewrite Hp, Hu, Hs, Hp', Hu', Hs'. repeat split; reflexivity.
Qed.

Lemma subscribed_app (t1 t2 : list event) :
  subscribed (t1 ++ t2) = subscribed t1 ++ subscribed t2.
Proof.
  induction t1 as [|e t1 IH]; [reflexivity|].
  destruct e; simpl; rewrite IH; reflexivity.
Qed.

(** The wrapper reaches the primitive, once and with its own arguments,
    exactly when the primitive resolves. *)
Lemma SubscribeWrapper_subscribed (hService : SC_HANDLE)
    (eEventType : SC_EVENT_TYPE) (pCallbackContext : PVOID)
    (pSubscription : PSC_NOTIFICATION_REGISTRATION) :
  subscribed (snd (SubscribeServiceChangeNotificationsWrapper os hService
                     eEventType pCallbackContext pSubscription))
  = if subscribe_resolves os then [(hService, pCallbackContext)] else [].
Proof.
  unfold SubscribeServiceChangeNotificationsWrapper, ScopedDllHandle,
    dll_deleter, subscribe_resolves.
  destruct (non_null (LoadLibrary os "SecHost.dll"));
    [destruct (non_null (GetProcAddress os _ _));
     [destruct (SubscribeServiceChangeNotifications os _ _ _ _ _)|]|];
    reflexivity.
Qed.

Lemma Start_service_subscribed (scm : SC_HANDLE) (m : gmap wstring ServiceData)
    (name : wstring) :
  subscribed (snd (Start_service os scm m name))
  = if non_null (OpenService os scm name) && subscribe_resolves os
    then [(OpenService os scm name, Some (addr_notify_buffer name))]
    else [].
Proof.
  unfold Start_service.
  destruct (non_null (OpenService os scm name)) eqn:Hsvc; simpl.
  - pose proof (SubscribeWrapper_subscribed (OpenService os scm name)
                  SC_EVENT_STATUS_CHANGE (Some (addr_notify_buffer name))
                  (registration (subscript m name))) as Hs.
    destruct (SubscribeServiceChangeNotificationsWrapper os _ _ _ _)
      as [[code subscription] t_sub].
    simpl in *. rewrite subscribed_app, Hs.
    unfold SCHandleCloser. rewrite Hsvc.
    destruct (subscribe_resolves os); reflexivity.
  - unfold SCHandleCloser. rewrite Hsvc. reflexivity.
Qed.

Lemma Start_loop_subscribed (scm : SC_HANDLE) (service_list : list wstring)
    (m : gmap wstring ServiceData) :
  subscribed (snd (Start_loop os scm service_list m))
  = if subscribe_resolves os
    then List.map
           (fun name => (OpenService os scm name, Some (addr_notify_buffer name)))
           (List.filter (fun name => non_null (OpenService os scm name))
                        service_list)
    else [].
Proof.
  revert m. induction service_list as [|name l IH]; intros m.
  - destruct (subscribe_resolves os); reflexivity.
  - rewrite Start_loop_cons. simpl.
    rewrite subscribed_app, Start_service_subscribed, IH.
    destruct (non_null (OpenService os scm name)), (subscribe_resolves os);
      reflexivity.
Qed.

(** ** Start as a whole *)

Lemma Start_map (this : ServiceStatusChangedNotifier)
    (service_list : list wstring) (mask : DWORD) (action : ActionFunction) :
  service_data_map_ (fst (Start os this service_list mask action))
  = if non_null (OpenSCManager os)
    then fst (Start_loop os (OpenSCManager os) service_list
                (service_data_map_ this))
    else service_data_map_ this.
Proof.
  unfold Start. destruct (non_null (OpenSCManager os)); [|reflexivity].
  destruct (Start_loop os _ _ _). reflexivity.
Qed.

Lemma Start_context (this : ServiceStatusChangedNotifier)
    (service_list : list wstring) (mask : DWORD) (action : ActionFunction) :
  context_ (fst (Start os this service_list mask action))
  = {| notify_mask := mask; action_function := action |}.
Proof.
  unfold Start. destruct (non_null (OpenSCManager os)); [|reflexivity].
  destruct (Start_loop os _ _ _). reflexivity.
Qed.

Lemma Start_calls (this : ServiceStatusChangedNotifier)
    (service_list : list wstring) (mask : DWORD) (action : ActionFunction) :
  snd (Start os this service_list mask action)
  = [ev_OpenSCManager]
    ++ (if non_null (OpenSCManager os)
        then snd (Start_loop os (OpenSCManager os) service_list
                    (service_data_map_ this))
        else [])
    ++ SCHandleCloser (OpenSCManager os).
Proof.
  unfold Start. destruct (non_null (OpenSCManager os)); [|reflexivity].
  destruct (Start_loop os _ _ _). reflexivity.
Qed.

Lemma Start_lookup_notin (this : ServiceStatusChangedNotifier)
    (service_list : list wstring) (mask : DWORD) (action : ActionFunction)
    (name : wstring) :
  name ∉ service_list ->
  service_data_map_ (fst (Start os this service_list mask action)) !! name
  = service_data_map_ this !! name.
Proof.
  intros Hnot. rewrite Start_map.
  destruct (non_null (OpenSCManager os)); [|reflexivity].
  apply Start_loop_lookup_notin, Hnot.
Qed.

Lemma Start_lookup_invalid (this : ServiceStatusChangedNotifier)
    (service_list : list wstring) (mask : DWORD) (action : ActionFunction)
    (name : wstring) :
  non_null (OpenService os (OpenSCManager os) name) = false ->
  service_data_map_ (fst (Start os this service_list mask action)) !! name
  = service_data_map_ this !! name.
Proof.
  intros Hinv. destruct (decide (name ∈ service_list)) as [Hin|Hnot];
    [|apply Start_lookup_notin, Hnot].
  rewrite Start_map. destruct (non_null (OpenSCManager os)); [|reflexivity].
  rewrite (Start_loop_lookup_in _ _ _ _ Hin), Start_service_lookup_eq, Hinv.
  reflexivity.
Qed.

Lemma Start_reads_only_the_map (os' : OS) (a b : ServiceStatusChangedNotifier)
    (service_list : list wstring) (mask : DWORD) (action : ActionFunction) :
  service_data_map_ a = service_data_map_ b ->
  Start os' a service_list mask action = Start os' b service_list mask action.
Proof. intros H. unfold Start. rewrite H. reflexivity. Qed.

Lemma steps_of_names (scm : SC_HANDLE) (service_list : list wstring) :
  opened_names (flat_map (steps_of os scm) service_list) = service_list
  /\ submitted_names (flat_map (steps_of os scm) service_list)
     = List.filter (fun name => non_null (OpenService os scm name)) service_list.
Proof.
  induction service_list as [|name l [IH1 IH2]]; [split; reflexivity|].
  simpl. unfold steps_of at 1 3.
  destruct (non_null (OpenService os scm name)); simpl; rewrite IH1, IH2;
    split; reflexivity.
Qed.

(** C4: [Start] is a total function: whatever the names, it returns, with a
    map and the calls made.  For every name: when its service does not open,
    its entry is what it was before the call, so none is created, and a
    notifier that was new has no entry for it; when it
    is in the list, its entry ends as if the list had held that name alone,
    whatever else the list holds and however often the name occurs; and
    when it is in the list and its service opens, the entry exists and holds
    the status and the handle the subscribe wrapper returned for it. *)
Theorem Start_partial_success (this : ServiceStatusChangedNotifier)
    (service_list : list wstring) (mask : DWORD) (action : ActionFunction)
    (name : wstring) :
  (OpenService os (OpenSCManager os) name = nullptr ->
   service_data_map_ (fst (Start os this service_list mask action)) !! name
   = service_data_map_ this !! name
   /\ service_data_map_
        (fst (Start os ServiceStatusChangedNotifier_new service_list mask
                action)) !! name
      = None)
  /\ (name ∈ service_list ->
      service_data_map_ (fst (Start os this service_list mask action)) !! name
      = service_data_map_ (fst (Start os this [name] mask action)) !! name)
  /\ (OpenSCManager os <> nullptr ->
      name ∈ service_list ->
      OpenService os (OpenSCManager os) name <> nullptr ->
      exists value,
        service_data_map_ (fst (Start os this service_list mask action)) !! name
        = Some value
        /\ (system_error_code value, registration value)
           = fst (SubscribeServiceChangeNotificationsWrapper os
                    (OpenService os (OpenSCManager os) name)
                    SC_EVENT_STATUS_CHANGE (Some (addr_notify_buffer name))
                    nullptr)).
Proof.
  split; [|split].
  - intros Hinv. apply non_null_false in Hinv.
    rewrite !Start_lookup_invalid by exact Hinv.
    split; [reflexivity|apply lookup_empty].
  - intros Hin. rewrite !Start_map.
    destruct (non_null (OpenSCManager os)); [|reflexivity].
    rewrite (Start_loop_lookup_in _ _ _ _ Hin).
    symmetry. apply Start_loop_lookup_in, list_elem_of_singleton. reflexivity.
  - intros Hscm Hin Hsvc. apply non_null_true in Hscm, Hsvc.
    rewrite Start_map, Hscm, (Start_loop_lookup_in _ _ _ _ Hin),
      Start_service_lookup_eq, Hsvc.
    eexists. split; [reflexivity|]. simpl.
    destruct (fst (SubscribeServiceChangeNotificationsWrapper os _ _ _ _)).
    reflexivity.
Qed.

(** C5: when the service control manager does not open, [Start] returns
    after that one call: the map is the map it found (empty on a new
    notifier), no service is opened or submitted, and only the context is
    set.  Nothing of the failure stays behind: a later [Start], on any
    system, behaves as it would have without the failed call. *)
Theorem Start_without_scm (this : ServiceStatusChangedNotifier)
    (service_list : list wstring) (mask : DWORD) (action : ActionFunction) :
  OpenSCManager os = nullptr ->
  service_data_map_ (fst (Start os this service_list mask action))
  = service_data_map_ this
  /\ service_data_map_
       (fst (Start os ServiceStatusChangedNotifier_new service_list mask action))
     = ∅
  /\ snd (Start os this service_list mask action) = [ev_OpenSCManager]
  /\ context_ (fst (Start os this service_list mask action))
     = {| notify_mask := mask; action_function := action |}
  /\ (forall os' service_list' mask' action',
        Start os' (fst (Start os this service_list mask action))
          service_list' mask' action'
        = Start os' this service_list' mask' action').
Proof.
  intros Hscm.
  assert (Hmap : forall that,
             service_data_map_ (fst (Start os that service_list mask action))
             = service_data_map_ that).
  { intros that. rewrite Start_map, Hscm. reflexivity. }
  split; [apply Hmap|]. split; [apply Hmap|].
  split; [rewrite Start_calls, Hscm; reflexivity|].
  split; [apply Start_context|].
  intros os' service_list' mask' action'.
  apply Start_reads_only_the_map, Hmap.
Qed.

(** C9: the steps of one [Start], read off its calls, are those of the
    names of the list in the order of the list: each service is opened,
    then submitted if it opened, before the next name is touched.  So the
    services opened are the list itself and the services submitted are its
    names that open, in its order; and the services that reach the
    subscribe primitive itself are these again, in the same order, when the
    primitive resolves.  (Nothing is processed when the service control
    manager does not open.) *)
Theorem Start_processes_in_order (this : ServiceStatusChangedNotifier)
    (service_list : list wstring) (mask : DWORD) (action : ActionFunction) :
  processing_steps (snd (Start os this service_list mask action))
  = (if non_null (OpenSCManager os)
     then flat_map (steps_of os (OpenSCManager os)) service_list
     else [])
  /\ opened_names
       (processing_steps (snd (Start os this service_list mask action)))
     = (if non_null (OpenSCManager os) then service_list else [])
  /\ submitted_names
       (processing_steps (snd (Start os this service_list mask action)))
     = (if non_null (OpenSCManager os)
        then List.filter
               (fun name => non_null (OpenService os (OpenSCManager os) name))
               service_list
        else [])
  /\ subscribed (snd (Start os this service_list mask action))
     = (if non_null (OpenSCManager os) && subscribe_resolves os
        then List.map
               (fun name => (OpenService os (OpenSCManager os) name,
                             Some (addr_notify_buffer name)))
               (List.filter
                  (fun name => non_null (OpenService os (OpenSCManager os) name))
                  service_list)
        else []).
Proof.
  assert (Hsub : subscribed (snd (Start os this service_list mask action))
                 = (if non_null (OpenSCManager os) && subscribe_resolves os
                    then List.map
                           (fun name => (OpenService os (OpenSCManager os) name,
                                         Some (addr_notify_buffer name)))
                           (List.filter
                              (fun name =>
                                 non_null (OpenService os (OpenSCManager os) name))
                              service_list)
                    else [])).
  { rewrite Start_calls. simpl. rewrite subscribed_app.
    unfold SCHandleCloser.
    destruct (non_null (OpenSCManager os)); simpl; [|reflexivity].
    rewrite app_nil_r. apply Start_loop_subscribed. }
  assert (H : processing_steps (snd (Start os this service_list mask action))
              = (if non_null (OpenSCManager os)
                 then flat_map (steps_of os (OpenSCManager os)) service_list
                 else [])).
  { rewrite Start_calls. simpl. rewrite processing_steps_app.
    rewrite (proj1 (SCHandleCloser_calls (OpenSCManager os))), app_nil_r.
    destruct (non_null (OpenSCManager os)); [|reflexivity].
    apply Start_loop_calls. }
  rewrite H, Hsub. split; [reflexivity|].
  destruct (non_null (OpenSCManager os)); [|repeat split; reflexivity].
  destruct (steps_of_names (OpenSCManager os) service_list) as [Ho Hs].
  rewrite Ho, Hs. repeat split; reflexivity.
Qed.

(** C10: an entry whose name is not in the list of a [Start] is the same
    after the call as before it, registration handle included, and [Start]
    calls neither the cancel wrapper nor the cancel primitive, for any
    entry. *)
Theorem Start_keeps_unlisted_entries (this : ServiceStatusChangedNotifier)
    (service_list : list wstring) (mask : DWORD) (action : ActionFunction)
    (name : wstring) :
  name ∉ service_list ->
  service_data_map_ (fst (Start os this service_list mask action)) !! name
  = service_data_map_ this !! name
  /\ unsubscribe_requests (snd (Start os this service_list mask action)) = []
  /\ unsubscribed (snd (Start os this service_list mask action)) = [].
Proof.
  intros Hnot. split; [apply Start_lookup_notin, Hnot|].
  rewrite Start_calls. simpl.
  rewrite unsubscribe_requests_app, unsubscribed_app.
  destruct (SCHandleCloser_calls (OpenSCManager os)) as (_ & Hu & Hs).
  rewrite Hu, Hs, !app_nil_r.
  destruct (non_null (OpenSCManager os)); [|split; reflexivity].
  apply Start_loop_calls.
Qed.

(** ** From Start to the dispatcher *)

(** The context is shared: whatever entry the callback is handed, it reads
    the mask and the action of the latest [Start]. *)
Lemma Start_context_shared (this : ServiceStatusChangedNotifier)
    (service_list : list wstring) (mask : DWORD) (action : ActionFunction)
    (p : PVOID) (buffer : NotifyBuffer) (context : Context) :
  deref (fst (Start os this service_list mask action)) p = Some buffer ->
  pContext buffer = Some context ->
  context = {| notify_mask := mask; action_function := action |}.
Proof.
  unfold deref. intros Hd Hc.
  destruct p as [[| |key]|]; try discriminate.
  destruct (service_data_map_ _ !! key) as [value|]; [|discriminate].
  destruct (pszServiceNames (notify_buffer value)) as [[|key'|]|];
    try discriminate.
  destruct (service_data_map_ _ !! key') as [value'|]; [|discriminate].
  injection Hd as <-. simpl in Hc.
  destruct (pContext (notify_buffer value)) as [[| |]|];
    try discriminate.
  rewrite Start_context in Hc. congruence.
Qed.

End StartProperties.

(** * The theorems at concrete inputs *)

Lemma NotifyCallbackFunc_failures_witness :
  NotifyCallbackFunc SERVICE_NOTIFY_STOPPED
    (Some (buffer_for "Alpha" SERVICE_NOTIFY_STOPPED None)) = dropped
  /\ NotifyCallbackFunc SERVICE_NOTIFY_STOPPED
       (Some (buffer_for "Alpha" SERVICE_NOTIFY_STOPPED throwing_action))
     = {| calls := [("Alpha", SERVICE_NOTIFY_STOPPED)];
          result := throws (user_exception "action failed") |}
  /\ NotifyCallbackFunc (N.lor SERVICE_NOTIFY_STOPPED SERVICE_NOTIFY_RUNNING)
       (Some (buffer_for "Alpha" SERVICE_NOTIFY_STOPPED quiet_action))
     = dropped.
Proof.
  split; [|split].
  - apply (NotifyCallbackFunc_failures SERVICE_NOTIFY_STOPPED
             (Some (buffer_for "Alpha" SERVICE_NOTIFY_STOPPED None))).
    discriminate.
  - exact (NotifyCallbackFunc_failures SERVICE_NOTIFY_STOPPED
             (Some (buffer_for "Alpha" SERVICE_NOTIFY_STOPPED throwing_action))).
  - exact (NotifyCallbackFunc_failures
             (N.lor SERVICE_NOTIFY_STOPPED SERVICE_NOTIFY_RUNNING)
             (Some (buffer_for "Alpha" SERVICE_NOTIFY_STOPPED quiet_action))).
Defined.

(** The entry of [Alpha] in [started_demo]. *)
Lemma started_demo_Alpha :
  service_data_map_ started_demo !! "Alpha"
  = Some {| service_name := "Alpha";
            notify_buffer :=
              {| pContext := Some addr_context_;
                 pszServiceNames := Some (addr_service_name "Alpha") |};
            registration := 1010;
            system_error_code := ERROR_SUCCESS |}.
Proof. vm_compute. reflexivity. Qed.

Lemma Stop_cancels_every_registration_witness :
  In 1010 (unsubscribe_requests (snd (Stop os_demo started_demo)))
  /\ service_data_map_ (fst (Stop os_demo started_demo)) !! "Alpha"
     = Some {| service_name := "Alpha";
               notify_buffer :=
                 {| pContext := Some addr_context_;
                    pszServiceNames := Some (addr_service_name "Alpha") |};
               registration := nullptr;
               system_error_code := ERROR_SUCCESS |}.
Proof.
  destruct (Stop_cancels_every_registration os_demo started_demo)
    as (_ & _ & H & _).
  apply (H "Alpha"
           {| service_name := "Alpha";
              notify_buffer :=
                {| pContext := Some addr_context_;
                   pszServiceNames := Some (addr_service_name "Alpha") |};
              registration := 1010;
              system_error_code := ERROR_SUCCESS |}).
  - exact started_demo_Alpha.
  - discriminate.
Defined.

Lemma Stop_idempotent_witness :
  Stop os_demo ServiceStatusChangedNotifier_new
  = (ServiceStatusChangedNotifier_new, [])
  /\ Stop os_demo (fst (Stop os_demo started_demo))
     = (fst (Stop os_demo started_demo), []).
Proof.
  split.
  - apply (proj1 (Stop_idempotent os_demo ServiceStatusChangedNotifier_new)).
    reflexivity.
  - apply (proj1 (proj2 (Stop_idempotent os_demo started_demo))).
Defined.

Lemma Start_partial_success_witness :
  service_data_map_
    (fst (Start os_demo ServiceStatusChangedNotifier_new
            ["Alpha"; "Beta"; "Gamma"; "Alpha"] SERVICE_NOTIFY_STOPPED
            quiet_action)) !! "Beta"
  = None
  /\ service_data_map_
       (fst (Start os_demo ServiceStatusChangedNotifier_new
               ["Alpha"; "Beta"; "Gamma"; "Alpha"] SERVICE_NOTIFY_STOPPED
               quiet_action)) !! "Alpha"
     = service_data_map_
         (fst (Start os_demo ServiceStatusChangedNotifier_new ["Alpha"]
                 SERVICE_NOTIFY_STOPPED quiet_action)) !! "Alpha"
  /\ exists value,
       service_data_map_
         (fst (Start os_demo ServiceStatusChangedNotifier_new
                 ["Alpha"; "Beta"; "Gamma"; "Alpha"] SERVICE_NOTIFY_STOPPED
                 quiet_action)) !! "Gamma"
       = Some value
       /\ (system_error_code value, registration value)
          = fst (SubscribeServiceChangeNotificationsWrapper os_demo
                   (OpenService os_demo (OpenSCManager os_demo) "Gamma")
                   SC_EVENT_STATUS_CHANGE (Some (addr_notify_buffer "Gamma"))
                   nullptr).
Proof.
  split; [|split].
  - apply (proj1 (Start_partial_success os_demo
                    ServiceStatusChangedNotifier_new
                    ["Alpha"; "Beta"; "Gamma"; "Alpha"] SERVICE_NOTIFY_STOPPED
                    quiet_action "Beta") eq_refl).
  - apply (proj1 (proj2 (Start_partial_success os_demo
                    ServiceStatusChangedNotifier_new
                    ["Alpha"; "Beta"; "Gamma"; "Alpha"] SERVICE_NOTIFY_STOPPED
                    quiet_action "Alpha"))).
    apply list_elem_of_here.
  - apply (proj2 (proj2 (Start_partial_success os_demo
                    ServiceStatusChangedNotifier_new
                    ["Alpha"; "Beta"; "Gamma"; "Alpha"] SERVICE_NOTIFY_STOPPED
                    quiet_action "Gamma"))).
    + discriminate.
    + apply list_elem_of_further, list_elem_of_further, list_elem_of_here.
    + discriminate.
Defined.

Lemma Start_without_scm_witness :
  OpenSCManager os_no_scm = nullptr
  /\ service_data_map_
       (fst (Start os_no_scm started_demo ["Alpha"; "Beta"]
               SERVICE_NOTIFY_RUNNING quiet_action))
     = service_data_map_ started_demo
  /\ snd (Start os_no_scm started_demo ["Alpha"; "Beta"]
            SERVICE_NOTIFY_RUNNING quiet_action)
     = [ev_OpenSCManager].
Proof.
  split; [reflexivity|].
  destruct (Start_without_scm os_no_scm started_demo ["Alpha"; "Beta"]
              SERVICE_NOTIFY_RUNNING quiet_action eq_refl)
    as (Hmap & _ & Hcalls & _).
  split; [exact Hmap|exact Hcalls].
Defined.

Lemma Start_keeps_unlisted_entries_witness :
  service_data_map_
    (fst (Start os_demo started_demo ["Gamma"; "Beta"]
            SERVICE_NOTIFY_RUNNING quiet_action)) !! "Alpha"
  = service_data_map_ started_demo !! "Alpha"
  /\ unsubscribe_requests
       (snd (Start os_demo started_demo ["Gamma"; "Beta"]
               SERVICE_NOTIFY_RUNNING quiet_action)) = []
  /\ unsubscribed
       (snd (Start os_demo started_demo ["Gamma"; "Beta"]
               SERVICE_NOTIFY_RUNNING quiet_action)) = [].
Proof.
  apply (Start_keeps_unlisted_entries os_demo started_demo ["Gamma"; "Beta"]
           SERVICE_NOTIFY_RUNNING quiet_action "Alpha").
  rewrite !not_elem_of_cons.
  repeat split; try discriminate. apply not_elem_of_nil.
Defined.

(** * Further properties of the dispatcher *)

(** X1: with an action present, the callback forwards a notification
    exactly when every flag bit set in it is a bit of the mask, which zero
    flags always are; it then makes the one call, with the name of the entry
    and the flags as they came, and ends as that call ends.  Any other
    notification is dropped. *)
Theorem NotifyCallbackFunc_present_action (dwNotify : DWORD)
    (notify_buffer : NotifyBuffer) (context : Context)
    (target : wstring -> DWORD -> completion) :
  pContext notify_buffer = Some context ->
  action_function context = Some target ->
  (NotifyCallbackFunc dwNotify (Some notify_buffer)
   = {| calls := [(pszServiceNames notify_buffer, dwNotify)];
        result := target (pszServiceNames notify_buffer) dwNotify |}
   <-> forall i, N.testbit dwNotify i = true ->
                 N.testbit (notify_mask context) i = true)
  /\ (NotifyCallbackFunc dwNotify (Some notify_buffer) = dropped
      <-> exists i, N.testbit dwNotify i = true
                    /\ N.testbit (notify_mask context) i = false).
Proof.
  intros Hr Ha. rewrite (NotifyCallbackFunc_resolved _ _ _ Hr).
  unfold notify_condition. rewrite Ha. simpl.
  destruct (N.eqb_spec (N.lor dwNotify (notify_mask context))
                       (notify_mask context)) as [Hs|Hs]; simpl.
  - pose proof (proj1 (lor_eq_subset _ _) Hs) as Hbits. split; split.
    + intros _. exact Hbits.
    + reflexivity.
    + discriminate.
    + intros (i & Hi & Hm). rewrite (Hbits i Hi) in Hm. discriminate.
  - assert (Hz : (dwNotify =? 0) = false).
    { apply N.eqb_neq. intros ->. apply Hs, N.lor_0_l. }
    rewrite Hz. split; split.
    + discriminate.
    + intros Hbits. exfalso. apply Hs, lor_eq_subset, Hbits.
    + intros _.
      destruct (N.eq_dec (N.lor dwNotify (notify_mask context))
                         (notify_mask context)) as [He|_]; [contradiction|].
      assert (Hex : ~ forall i, N.testbit dwNotify i = true ->
                                N.testbit (notify_mask context) i = true)
        by (intros Hall; apply Hs, lor_eq_subset, Hall).
      (* the offending bit is found among those of the difference *)
      assert (Hd : N.ldiff dwNotify (notify_mask context) <> 0).
      { intros Hd. apply Hex. intros i Hi.
        assert (Hb : N.testbit (N.ldiff dwNotify (notify_mask context)) i
                     = false) by (rewrite Hd; apply N.bits_0).
        rewrite N.ldiff_spec, Hi in Hb. simpl in Hb.
        apply negb_false_iff in Hb. exact Hb. }
      exists (N.log2 (N.ldiff dwNotify (notify_mask context))).
      apply N.bit_log2 in Hd. rewrite N.ldiff_spec in Hd.
      apply andb_true_iff in Hd as [Hi Hm].
      apply negb_true_iff in Hm. split; assumption.
    + reflexivity.
Qed.

Lemma NotifyCallbackFunc_present_action_witness :
  NotifyCallbackFunc SERVICE_NOTIFY_STOPPED
    (Some (buffer_for "Alpha" (N.lor SERVICE_NOTIFY_STOPPED
                                     SERVICE_NOTIFY_RUNNING) quiet_action))
  = {| calls := [("Alpha", SERVICE_NOTIFY_STOPPED)]; result := returns |}
  <-> forall i, N.testbit SERVICE_NOTIFY_STOPPED i = true ->
                N.testbit (N.lor SERVICE_NOTIFY_STOPPED SERVICE_NOTIFY_RUNNING) i
                = true.
Proof.
  exact (proj1 (NotifyCallbackFunc_present_action SERVICE_NOTIFY_STOPPED
                  (buffer_for "Alpha" (N.lor SERVICE_NOTIFY_STOPPED
                                             SERVICE_NOTIFY_RUNNING)
                              quiet_action)
                  {| notify_mask := N.lor SERVICE_NOTIFY_STOPPED
                                          SERVICE_NOTIFY_RUNNING;
                     action_function := quiet_action |}
                  (fun _ _ => returns) eq_refl eq_refl)).
Defined.

(** X2: the earlier revision of the callback never calls an empty action
    function and never forwards zero flags; on flags that are not zero it
    does what the current callback does.  So the two revisions differ on
    zero flags only, where the earlier one drops what the current one
    forwards. *)
Theorem Earlier_NotifyCallbackFunc_guarded (dwNotify : DWORD)
    (pCallbackContext : option NotifyBuffer) :
  (forall context,
      resolve pCallbackContext = Some context ->
      action_function context = None ->
      Earlier.NotifyCallbackFunc dwNotify pCallbackContext = dropped)
  /\ Earlier.NotifyCallbackFunc 0 pCallbackContext = dropped
  /\ (dwNotify <> 0 ->
      Earlier.NotifyCallbackFunc dwNotify pCallbackContext
      = NotifyCallbackFunc dwNotify pCallbackContext).
Proof.
  unfold Earlier.NotifyCallbackFunc, NotifyCallbackFunc, resolve,
    Earlier.notify_condition, notify_condition.
  destruct pCallbackContext as [notify_buffer|];
    [|repeat split; intros; reflexivity].
  destruct (pContext notify_buffer) as [context|];
    [|repeat split; intros; reflexivity].
  split; [|split].
  - intros context' [= <-] Ha. rewrite Ha. reflexivity.
  - simpl. rewrite andb_false_r. reflexivity.
  - intros Hn. apply N.eqb_neq in Hn. rewrite Hn. simpl.
    rewrite andb_true_r, orb_false_r. reflexivity.
Qed.

(** X3: what the demonstration program writes for a notification.  Its mask
    is [SERVICE_NOTIFY_STOPPED], so for every flag value: on exactly that
    flag it writes the notification line and the line [action]; on zero
    flags it writes the notification line alone; on any other flags it
    writes nothing, the callback having dropped them. *)
Theorem main_notification_output (name : wstring) (dwNotify : DWORD) :
  written (NotifyCallbackFunc dwNotify
             (Some (buffer_for name SERVICE_NOTIFY_STOPPED OnNotificationAction)))
  = if dwNotify =? SERVICE_NOTIFY_STOPPED then
      [out_text "notification: "; out_text name; out_text " current state: ";
       out_number SERVICE_NOTIFY_STOPPED; out_text newline;
       out_text "action"; out_text newline]
    else if dwNotify =? 0 then
      [out_text "notification: "; out_text name; out_text " current state: ";
       out_number 0; out_text newline]
    else [].
Proof.
  destruct dwNotify as [|[p|p|]]; reflexivity.
Qed.

(** * Further properties of Start *)

Section MoreStartProperties.

Variable os : OS.

(** Every entry after [Start]: rewritten from the wrapper's result when the
    name was processed, untouched otherwise. *)
Lemma Start_lookup_cases (this : ServiceStatusChangedNotifier)
    (service_list : list wstring) (mask : DWORD) (action : ActionFunction)
    (name : wstring) :
  service_data_map_ (fst (Start os this service_list mask action)) !! name
  = if processed os service_list name then
      Some {| service_name :=
                wstring_copy name
                  (service_name (subscript (service_data_map_ this) name));
              notify_buffer :=
                {| pContext := Some addr_context_;
                   pszServiceNames := Some (addr_service_name name) |};
              registration := snd (obtained os name);
              system_error_code := fst (obtained os name) |}
    else service_data_map_ this !! name.
Proof.
  unfold processed, obtained. rewrite Start_map.
  destruct (non_null (OpenSCManager os)); simpl; [|reflexivity].
  destruct (bool_decide_reflect (name ∈ service_list)) as [Hin|Hnot]; simpl.
  - rewrite (Start_loop_lookup_in _ _ _ _ _ Hin). apply Start_service_lookup_eq.
  - apply Start_loop_lookup_notin, Hnot.
Qed.

Lemma obtained_unresolved (name : wstring) :
  subscribe_resolves os = false ->
  obtained os name
  = (if non_null (LoadLibrary os "SecHost.dll") then 0 else GetLastError os,
     nullptr).
Proof.
  unfold subscribe_resolves, obtained,
    SubscribeServiceChangeNotificationsWrapper, ScopedDllHandle.
  destruct (non_null (LoadLibrary os "SecHost.dll")); simpl; [|reflexivity].
  intros ->. reflexivity.
Qed.

Lemma live_registrations_In (m : gmap wstring ServiceData)
    (r : PSC_NOTIFICATION_REGISTRATION) :
  In r (live_registrations m)
  <-> r <> nullptr /\ exists k value, m !! k = Some value /\ registration value = r.
Proof.
  unfold live_registrations. rewrite filter_In, in_map_iff, non_null_true.
  split.
  - intros [([k value] & Hr & Hin) Hn]. split; [exact Hn|].
    exists k, value. split; [|exact Hr].
    apply elem_of_map_to_list, list_elem_of_In, Hin.
  - intros [Hn (k & value & Hk & Hr)]. split; [|exact Hn].
    exists (k, value). split; [exact Hr|].
    apply list_elem_of_In, elem_of_map_to_list, Hk.
Qed.

(** X4: [Start] never removes an entry.  The keys after the call are the
    keys before it together with the names it processed (those of the list
    whose service opened, the service control manager having opened), and
    an entry whose name it did not process is the entry it was. *)
Theorem Start_never_removes (this : ServiceStatusChangedNotifier)
    (service_list : list wstring) (mask : DWORD) (action : ActionFunction)
    (name : wstring) :
  (is_Some (service_data_map_ (fst (Start os this service_list mask action))
              !! name)
   <-> is_Some (service_data_map_ this !! name)
       \/ processed os service_list name = true)
  /\ (processed os service_list name = false ->
      service_data_map_ (fst (Start os this service_list mask action)) !! name
      = service_data_map_ this !! name).
Proof.
  rewrite Start_lookup_cases.
  destruct (processed os service_list name); split.
  - split; [intros _; right; reflexivity|intros _; eexists; reflexivity].
  - discriminate.
  - split; [intros H; left; exact H|intros [H|H]; [exact H|discriminate]].
  - reflexivity.
Qed.

(** X5: when the subscribe primitive cannot be reached, [Start] still
    creates an entry for every service that opens, with a null registration
    handle; its error code is the last error when [SecHost.dll] did not load,
    and zero, which is [ERROR_SUCCESS], when the library loaded but the
    symbol was missing.  If the notifier held no live registration before,
    it holds none after, and a following [Stop] makes no call. *)
Theorem Start_registration_failure (this : ServiceStatusChangedNotifier)
    (service_list : list wstring) (mask : DWORD) (action : ActionFunction) :
  subscribe_resolves os = false ->
  (forall name,
      processed os service_list name = true ->
      exists value,
        service_data_map_ (fst (Start os this service_list mask action)) !! name
        = Some value
        /\ registration value = nullptr
        /\ system_error_code value
           = if non_null (LoadLibrary os "SecHost.dll")
             then ERROR_SUCCESS else GetLastError os)
  /\ (live_registrations (service_data_map_ this) = [] ->
      forall os',
        Stop os' (fst (Start os this service_list mask action))
        = (fst (Start os this service_list mask action), [])).
Proof.
  intros Hres. split.
  - intros name Hp. rewrite Start_lookup_cases, Hp.
    eexists. split; [reflexivity|]. simpl.
    rewrite (obtained_unresolved name Hres). split; reflexivity.
  - intros Hnone os'. apply Stop_inactive.
    apply (proj2 (live_registrations_nil os' _)).
    intros k value. rewrite Start_lookup_cases.
    destruct (processed os service_list k).
    + intros [= <-]. simpl. rewrite (obtained_unresolved k Hres). reflexivity.
    + apply (proj1 (live_registrations_nil os' _) Hnone).
Qed.

End MoreStartProperties.

Lemma Start_registration_failure_witness :
  (exists value,
      service_data_map_
        (fst (Start os_no_dll ServiceStatusChangedNotifier_new
                ["Alpha"; "Beta"] SERVICE_NOTIFY_STOPPED quiet_action))
        !! "Alpha"
      = Some value
      /\ registration value = nullptr
      /\ system_error_code value = 126)
  /\ Stop os_demo
       (fst (Start os_no_symbol ServiceStatusChangedNotifier_new
               ["Alpha"; "Beta"] SERVICE_NOTIFY_STOPPED quiet_action))
     = (fst (Start os_no_symbol ServiceStatusChangedNotifier_new
               ["Alpha"; "Beta"] SERVICE_NOTIFY_STOPPED quiet_action), []).
Proof.
  split.
  - apply (proj1 (Start_registration_failure os_no_dll
                    ServiceStatusChangedNotifier_new ["Alpha"; "Beta"]
                    SERVICE_NOTIFY_STOPPED quiet_action eq_refl) "Alpha").
    reflexivity.
  - apply (proj2 (Start_registration_failure os_no_symbol
                    ServiceStatusChangedNotifier_new ["Alpha"; "Beta"]
                    SERVICE_NOTIFY_STOPPED quiet_action eq_refl)).
    reflexivity.
Defined.

(** * Handles and libraries *)

Section ResourceProperties.

Variable os : OS.

Lemma closed_handles_app (t1 t2 : list event) :
  closed_handles (t1 ++ t2) = closed_handles t1 ++ closed_handles t2.
Proof.
  induction t1 as [|e t1 IH]; [reflexivity|].
  destruct e; simpl; rewrite IH; reflexivity.
Qed.

Lemma loaded_libraries_app (t1 t2 : list event) :
  loaded_libraries (t1 ++ t2) = loaded_libraries t1 ++ loaded_libraries t2.
Proof.
  induction t1 as [|e t1 IH]; [reflexivity|].
  destruct e; simpl; rewrite IH; reflexivity.
Qed.

Lemma freed_libraries_app (t1 t2 : list event) :
  freed_libraries (t1 ++ t2) = freed_libraries t1 ++ freed_libraries t2.
Proof.
  induction t1 as [|e t1 IH]; [reflexivity|].
  destruct e; simpl; rewrite IH; reflexivity.
Qed.

Lemma modules_of_app (names1 names2 : list wstring) :
  modules_of os (names1 ++ names2) = modules_of os names1 ++ modules_of os names2.
Proof. apply flat_map_app. Qed.

(** The resources of one call of the subscribe wrapper. *)
Lemma SubscribeWrapper_resources (hService : SC_HANDLE)
    (eEventType : SC_EVENT_TYPE) (pCallbackContext : PVOID)
    (pSubscription : PSC_NOTIFICATION_REGISTRATION) :
  let t := snd (SubscribeServiceChangeNotificationsWrapper os hService
                  eEventType pCallbackContext pSubscription) in
  closed_handles t = []
  /\ loaded_libraries t = ["SecHost.dll"]
  /\ freed_libraries t = modules_of os ["SecHost.dll"].
Proof.
  unfold SubscribeServiceChangeNotificationsWrapper, ScopedDllHandle,
    dll_deleter, modules_of.
  simpl. destruct (non_null (LoadLibrary os "SecHost.dll"));
    [destruct (non_null (GetProcAddress os _ _));
     [destruct (SubscribeServiceChangeNotifications os _ _ _ _ _)|]|];
    repeat split; reflexivity.
Qed.

Lemma UnsubscribeWrapper_resources (r : PSC_NOTIFICATION_REGISTRATION) :
  let t := UnsubscribeServiceChangeNotificationsWrapper os r in
  closed_handles t = []
  /\ loaded_libraries t = ["SecHost.dll"]
  /\ freed_libraries t = modules_of os ["SecHost.dll"].
Proof.
  unfold UnsubscribeServiceChangeNotificationsWrapper, ScopedDllHandle,
    dll_deleter, modules_of.
  simpl. destruct (non_null (LoadLibrary os "SecHost.dll"));
    [destruct (non_null (GetProcAddress os _ _))|];
    repeat split; reflexivity.
Qed.

Lemma Start_service_resources (scm : SC_HANDLE) (m : gmap wstring ServiceData)
    (name : wstring) :
  let t := snd (Start_service os scm m name) in
  closed_handles t
  = (if non_null (OpenService os scm name) then [OpenService os scm name]
     else [])
  /\ loaded_libraries t
     = (if non_null (OpenService os scm name) then ["SecHost.dll"] else [])
  /\ freed_libraries t = modules_of os (loaded_libraries t).
Proof.
  unfold Start_service, SCHandleCloser.
  destruct (non_null (OpenService os scm name)) eqn:Hsvc;
    [|repeat split; reflexivity].
  pose proof (SubscribeWrapper_resources (OpenService os scm name)
                SC_EVENT_STATUS_CHANGE (Some (addr_notify_buffer name))
                (registration (subscript m name))) as (Hc & Hl & Hf).
  destruct (SubscribeServiceChangeNotificationsWrapper os _ _ _ _)
    as [[code subscription] t_sub].
  simpl in *.
  rewrite closed_handles_app, loaded_libraries_app, freed_libraries_app.
  rewrite Hc, Hl, Hf. simpl. rewrite !app_nil_r. repeat split; reflexivity.
Qed.

Lemma Start_loop_resources (scm : SC_HANDLE) (service_list : list wstring)
    (m : gmap wstring ServiceData) :
  let t := snd (Start_loop os scm service_list m) in
  closed_handles t
  = List.filter non_null (List.map (OpenService os scm) service_list)
  /\ loaded_libraries t
     = List.map (fun _ => "SecHost.dll")
         (List.filter (fun name => non_null (OpenService os scm name))
                      service_list)
  /\ freed_libraries t = modules_of os (loaded_libraries t).
Proof.
  revert m. induction service_list as [|name l IH]; intros m.
  - repeat split; reflexivity.
  - rewrite Start_loop_cons. simpl.
    destruct (Start_service_resources scm m name) as (Hc & Hl & Hf).
    destruct (IH (fst (Start_service os scm m name))) as (Hc' & Hl' & Hf').
    rewrite closed_handles_app, loaded_libraries_app, freed_libraries_app,
      modules_of_app.
    rewrite Hc, Hc', Hf, Hf', Hl, Hl'.
    destruct (non_null (OpenService os scm name)); repeat split; reflexivity.
Qed.

(** X6: [Start] closes every handle it opened, once and in the order it
    opened them: the handle of each service of the list that opened, and
    last the handle of the service control manager.  It never hands a null
    handle to [CloseServiceHandle], and closes nothing when the service
    control manager did not open. *)
Theorem Start_closes_every_handle (this : ServiceStatusChangedNotifier)
    (service_list : list wstring) (mask : DWORD) (action : ActionFunction) :
  closed_handles (snd (Start os this service_list mask action))
  = (if non_null (OpenSCManager os)
     then List.filter non_null
            (List.map (OpenService os (OpenSCManager os)) service_list)
          ++ [OpenSCManager os]
     else [])
  /\ ~ In nullptr (closed_handles (snd (Start os this service_list mask action))).
Proof.
  assert (H : closed_handles (snd (Start os this service_list mask action))
              = (if non_null (OpenSCManager os)
                 then List.filter non_null
                        (List.map (OpenService os (OpenSCManager os))
                                  service_list)
                      ++ [OpenSCManager os]
                 else [])).
  { rewrite Start_calls. simpl. rewrite closed_handles_app.
    unfold SCHandleCloser.
    destruct (non_null (OpenSCManager os)); [|reflexivity].
    rewrite (proj1 (Start_loop_resources _ _ _)). reflexivity. }
  split; [exact H|]. rewrite H.
  destruct (non_null (OpenSCManager os)) eqn:Hscm; [|intros []].
  intros Hin. apply in_app_or in Hin as [Hin|[Hin|[]]].
  - apply filter_In in Hin as [_ Hn]. discriminate.
  - rewrite Hin in Hscm. discriminate.
Qed.

(** The resources of [Stop], value by value. *)
Lemma Stop_value_resources (value : ServiceData) :
  let t := snd (Stop_value os value) in
  closed_handles t = []
  /\ loaded_libraries t
     = (if non_null (registration value) then ["SecHost.dll"] else [])
  /\ freed_libraries t = modules_of os (loaded_libraries t).
Proof.
  unfold Stop_value.
  destruct (non_null (registration value)); [|repeat split; reflexivity].
  destruct (UnsubscribeWrapper_resources (registration value))
    as (Hc & Hl & Hf).
  simpl in *. rewrite Hc, Hl, Hf. repeat split; reflexivity.
Qed.

Lemma Stop_entries_resources (entries : list (wstring * ServiceData)) :
  let t := flat_map (fun entry => snd (Stop_value os (snd entry))) entries in
  closed_handles t = []
  /\ loaded_libraries t
     = List.map (fun _ => "SecHost.dll")
         (List.filter non_null
            (List.map (fun entry => registration (snd entry)) entries))
  /\ freed_libraries t = modules_of os (loaded_libraries t).
Proof.
  induction entries as [|entry entries (Hc & Hl & Hf)];
    [repeat split; reflexivity|].
  destruct (Stop_value_resources (snd entry)) as (Hc' & Hl' & Hf').
  simpl in *.
  rewrite closed_handles_app, loaded_libraries_app, freed_libraries_app,
    modules_of_app, Hc, Hf, Hc', Hf', Hl'.
  repeat split; try reflexivity. rewrite Hl.
  destruct (non_null (registration (snd entry))); reflexivity.
Qed.

(** X7: [SecHost.dll] is the only library loaded; it is loaded once for
    each service [Start] submits and once for each registration [Stop]
    cancels, and every load that succeeded is matched by one [FreeLibrary]
    of the module it gave, in the same order; no module is freed that was
    not loaded.  [Stop] closes no service handle. *)
Theorem libraries_are_released (this : ServiceStatusChangedNotifier)
    (service_list : list wstring) (mask : DWORD) (action : ActionFunction) :
  loaded_libraries (snd (Start os this service_list mask action))
  = (if non_null (OpenSCManager os)
     then List.map (fun _ => "SecHost.dll")
            (List.filter
               (fun name => non_null (OpenService os (OpenSCManager os) name))
               service_list)
     else [])
  /\ freed_libraries (snd (Start os this service_list mask action))
     = modules_of os
         (loaded_libraries (snd (Start os this service_list mask action)))
  /\ loaded_libraries (snd (Stop os this))
     = List.map (fun _ => "SecHost.dll")
         (live_registrations (service_data_map_ this))
  /\ freed_libraries (snd (Stop os this))
     = modules_of os (loaded_libraries (snd (Stop os this)))
  /\ closed_handles (snd (Stop os this)) = [].
Proof.
  rewrite Start_calls, Stop_closed_form. simpl.
  rewrite loaded_libraries_app, freed_libraries_app.
  assert (Hclose : loaded_libraries (SCHandleCloser (OpenSCManager os)) = []
                   /\ freed_libraries (SCHandleCloser (OpenSCManager os)) = [])
    by (unfold SCHandleCloser; destruct (non_null (OpenSCManager os));
        split; reflexivity).
  destruct Hclose as [Hl Hf]. rewrite Hl, Hf, !app_nil_r.
  destruct (Stop_entries_resources (map_to_list (service_data_map_ this)))
    as (Hc' & Hl' & Hf').
  split; [|split; [|split; [exact Hl'|split; [exact Hf'|exact Hc']]]].
  - destruct (non_null (OpenSCManager os)); [|reflexivity].
    apply Start_loop_resources.
  - destruct (non_null (OpenSCManager os)); [|reflexivity].
    apply Start_loop_resources.
Qed.

End ResourceProperties.

(** * The earlier revision and the current one *)

Section RevisionProperties.

Variable os : OS.

Lemma dll_deleter_loaded (dll : HINSTANCE) :
  non_null dll = true -> dll_deleter dll = [ev_FreeLibrary dll].
Proof. intros H. unfold dll_deleter. rewrite H. reflexivity. Qed.

Lemma Earlier_subscribe_wrapper (hService : SC_HANDLE)
    (eEventType : SC_EVENT_TYPE) (pCallbackContext : PVOID)
    (pSubscription : PSC_NOTIFICATION_REGISTRATION) :
  Earlier.SubscribeServiceChangeNotifications_wrapper os hService eEventType
    pCallbackContext pSubscription
  = SubscribeServiceChangeNotificationsWrapper os hService eEventType
      pCallbackContext pSubscription.
Proof.
  unfold Earlier.SubscribeServiceChangeNotifications_wrapper,
    SubscribeServiceChangeNotificationsWrapper, ScopedDllHandle, dll_deleter.
  destruct (non_null (LoadLibrary os "SecHost.dll"));
    [destruct (non_null (GetProcAddress os _ _));
     [destruct (SubscribeServiceChangeNotifications os _ _ _ _ _)|]|];
    reflexivity.
Qed.

Lemma Earlier_unsubscribe_wrapper (r : PSC_NOTIFICATION_REGISTRATION) :
  Earlier.UnsubscribeServiceChangeNotifications_wrapper os r
  = UnsubscribeServiceChangeNotificationsWrapper os r.
Proof.
  unfold Earlier.UnsubscribeServiceChangeNotifications_wrapper,
    UnsubscribeServiceChangeNotificationsWrapper, ScopedDllHandle, dll_deleter.
  destruct (non_null (LoadLibrary os "SecHost.dll"));
    [destruct (non_null (GetProcAddress os _ _))|]; reflexivity.
Qed.

Lemma Earlier_Start_service (scm : SC_HANDLE) (m : gmap wstring ServiceData)
    (name : wstring) :
  Earlier.Start_service os scm m name = Start_service os scm m name.
Proof.
  unfold Earlier.Start_service, Start_service, SCHandleCloser.
  rewrite Earlier_subscribe_wrapper.
  destruct (non_null (OpenService os scm name)); reflexivity.
Qed.

Lemma Earlier_Start (this : ServiceStatusChangedNotifier)
    (service_list : list wstring) (mask : DWORD) (action : ActionFunction) :
  Earlier.Start os this service_list mask action
  = Start os this service_list mask action.
Proof.
  unfold Earlier.Start, Start, Start_loop, SCHandleCloser.
  destruct (non_null (OpenSCManager os)); [|reflexivity].
  assert (Hfold : forall l acc,
    fold_left
      (fun (acc : gmap wstring ServiceData * list event) (name : wstring) =>
         let '(m', t') := Earlier.Start_service os (OpenSCManager os)
                            (fst acc) name in
         (m', snd acc ++ t'))
      l acc
    = fold_left
        (fun (acc : gmap wstring ServiceData * list event) (name : wstring) =>
           let '(m', t') := Start_service os (OpenSCManager os)
                              (fst acc) name in
           (m', snd acc ++ t'))
        l acc).
  { induction l as [|name l IH]; intros acc; simpl; [reflexivity|].
    rewrite Earlier_Start_service. apply IH. }
  rewrite Hfold. reflexivity.
Qed.

(** The loop of the earlier [Stop], which leaves an entry without a
    registration alone where the current loop writes it back unchanged. *)
Lemma Earlier_Stop_fold (entries : list (wstring * ServiceData))
    (m : gmap wstring ServiceData) (t : list event) :
  NoDup (entries.*1) ->
  (forall k value, (k, value) ∈ entries -> m !! k = Some value) ->
  fold_left
    (fun (acc : gmap wstring ServiceData * list event)
         (service_data : wstring * ServiceData) =>
       if non_null (registration (snd service_data)) then
         (<[fst service_data :=
              set_registration nullptr (snd service_data)]> (fst acc),
          snd acc
          ++ ev_UnsubscribeWrapper (registration (snd service_data))
             :: Earlier.UnsubscribeServiceChangeNotifications_wrapper os
                  (registration (snd service_data)))
       else acc)
    entries (m, t)
  = fold_left
      (fun (acc : gmap wstring ServiceData * list event)
           (entry : wstring * ServiceData) =>
         let '(value', t') := Stop_value os (snd entry) in
         (<[fst entry := value']> (fst acc), snd acc ++ t'))
      entries (m, t).
Proof.
  revert m t. induction entries as [|[k value] entries IH];
    intros m t Hnd Hm; [reflexivity|].
  apply NoDup_cons in Hnd as [Hk Hnd]. simpl. unfold Stop_value.
  rewrite Earlier_unsubscribe_wrapper.
  destruct (non_null (registration value)); simpl.
  - apply IH; [exact Hnd|]. intros k' value' Hin.
    rewrite lookup_insert_ne.
    + apply Hm. right. exact Hin.
    + intros ->. apply Hk. apply list_elem_of_fmap.
      exists (k', value'). split; [reflexivity|exact Hin].
  - rewrite app_nil_r, (insert_id m k value) by (apply Hm; left).
    apply IH; [exact Hnd|]. intros k' value' Hin. apply Hm. right. exact Hin.
Qed.

Lemma Earlier_Stop (this : ServiceStatusChangedNotifier) :
  Earlier.Stop os this = Stop os this.
Proof.
  unfold Earlier.Stop, Stop, Stop_loop.
  rewrite Earlier_Stop_fold; [reflexivity|apply NoDup_fst_map_to_list|].
  intros k value. apply elem_of_map_to_list.
Qed.

(** X8: replacing the handles closed by hand with scoped handles changed
    nothing that can be observed: on every system and for every notifier and
    arguments, [Start] and [Stop] of the earlier revision return the state
    and make the calls, in the order, of the current ones, and so do its two
    wrappers. *)
Theorem Earlier_revision_agrees (this : ServiceStatusChangedNotifier)
    (service_list : list wstring) (mask : DWORD) (action : ActionFunction)
    (hService : SC_HANDLE) (eEventType : SC_EVENT_TYPE)
    (pCallbackContext : PVOID) (pSubscription : PSC_NOTIFICATION_REGISTRATION) :
  Earlier.Start os this service_list mask action
  = Start os this service_list mask action
  /\ Earlier.Stop os this = Stop os this
  /\ Earlier.SubscribeServiceChangeNotifications_wrapper os hService eEventType
       pCallbackContext pSubscription
     = SubscribeServiceChangeNotificationsWrapper os hService eEventType
         pCallbackContext pSubscription
  /\ Earlier.UnsubscribeServiceChangeNotifications_wrapper os pSubscription
     = UnsubscribeServiceChangeNotificationsWrapper os pSubscription.
Proof.
  split; [apply Earlier_Start|]. split; [apply Earlier_Stop|].
  split; [apply Earlier_subscribe_wrapper|apply Earlier_unsubscribe_wrapper].
Qed.

End RevisionProperties.

(** * Start, Stop and the destructor together *)

Section LifecycleProperties.

Variable os : OS.

Lemma Stop_value_state (value : ServiceData) :
  fst (Stop_value os value) = set_registration nullptr value.
Proof.
  unfold Stop_value.
  destruct (non_null (registration value)) eqn:Hr; [reflexivity|].
  apply non_null_false in Hr. destruct value as [n b r c]. simpl in *.
  rewrite Hr. reflexivity.
Qed.

Lemma Start_cancels_nothing (this : ServiceStatusChangedNotifier)
    (service_list : list wstring) (mask : DWORD) (action : ActionFunction) :
  unsubscribe_requests (snd (Start os this service_list mask action)) = []
  /\ unsubscribed (snd (Start os this service_list mask action)) = [].
Proof.
  rewrite Start_calls. simpl.
  rewrite unsubscribe_requests_app, unsubscribed_app.
  destruct (SCHandleCloser_calls (OpenSCManager os)) as (_ & Hu & Hs).
  rewrite Hu, Hs, !app_nil_r.
  destruct (non_null (OpenSCManager os)); [|split; reflexivity].
  apply Start_loop_calls.
Qed.

Lemma Stop_lookup_state (this : ServiceStatusChangedNotifier) (key : wstring) :
  service_data_map_ (fst (Stop os this)) !! key
  = set_registration nullptr <$> service_data_map_ this !! key.
Proof.
  rewrite Stop_lookup. destruct (service_data_map_ this !! key); simpl;
    [rewrite Stop_value_state|]; reflexivity.
Qed.

(** X9: [Stop] erases nothing but registration handles: every entry is
    still there afterwards, under its key, with its name buffer, notify
    buffer and error code, and the context is the one [Start] set; no entry
    appears. *)
Theorem Stop_keeps_entries (this : ServiceStatusChangedNotifier)
    (key : wstring) :
  service_data_map_ (fst (Stop os this)) !! key
  = set_registration nullptr <$> service_data_map_ this !! key
  /\ context_ (fst (Stop os this)) = context_ this.
Proof.
  split; [apply Stop_lookup_state|].
  rewrite Stop_closed_form. reflexivity.
Qed.


(** X11: a [Start] that processes a name again overwrites the registration
    handle its entry held, without cancelling it.  If the subscribe wrapper
    returns other handles than that one for the names of the list, and no
    other entry holds it, the old handle is handed to the cancel wrapper
    neither by this [Start] nor by the [Stop] that follows: the registration
    it stands for stays active and out of the notifier's reach. *)
Theorem Start_orphans_replaced_registration (os' : OS)
    (this : ServiceStatusChangedNotifier)
    (service_list : list wstring) (mask : DWORD) (action : ActionFunction)
    (name : wstring) (value : ServiceData) :
  service_data_map_ this !! name = Some value ->
  registration value <> nullptr ->
  processed os service_list name = true ->
  ~ In (registration value)
       (List.map (fun name' => snd (obtained os name')) service_list) ->
  ~ In (registration value)
       (live_registrations (delete name (service_data_map_ this))) ->
  ~ In (registration value)
       (unsubscribe_requests
          (snd (Start os this service_list mask action)
           ++ snd (Stop os' (fst (Start os this service_list mask action))))).
Proof.
  intros Hname Hlive Hp Hnew Hothers.
  rewrite unsubscribe_requests_app.
  rewrite (proj1 (Start_cancels_nothing this service_list mask action)).
  simpl. rewrite Stop_requests, live_registrations_In.
  intros [_ (k & value' & Hk & Hr)]. rewrite Start_lookup_cases in Hk.
  destruct (processed os service_list k) eqn:Hp'.
  - injection Hk as <-. simpl in Hr.
    apply Hnew. apply in_map_iff. exists k. split; [exact Hr|].
    unfold processed in Hp'. apply andb_true_iff in Hp' as [Hp' _].
    apply andb_true_iff in Hp' as [_ Hin].
    apply bool_decide_eq_true in Hin. apply list_elem_of_In, Hin.
  - apply Hothers. apply live_registrations_In. split; [exact Hlive|].
    exists k, value'. split; [|exact Hr].
    rewrite lookup_delete_ne; [exact Hk|].
    intros <-. rewrite Hp in Hp'. discriminate.
Qed.

End LifecycleProperties.


Lemma Start_orphans_replaced_registration_witness :
  ~ In 1010
       (unsubscribe_requests
          (snd (Start os_later started_demo ["Alpha"] SERVICE_NOTIFY_STOPPED
                  quiet_action)
           ++ snd (Stop os_later
                     (fst (Start os_later started_demo ["Alpha"]
                             SERVICE_NOTIFY_STOPPED quiet_action))))).
Proof.
  apply (Start_orphans_replaced_registration os_later os_later started_demo
           ["Alpha"] SERVICE_NOTIFY_STOPPED quiet_action "Alpha"
           {| service_name := "Alpha";
              notify_buffer :=
                {| pContext := Some addr_context_;
                   pszServiceNames := Some (addr_service_name "Alpha") |};
              registration := 1010;
              system_error_code := ERROR_SUCCESS |}).
  - exact started_demo_Alpha.
  - discriminate.
  - reflexivity.
  - vm_compute. intros [H|[]]. discriminate.
  - vm_compute. intros [H|[]]. discriminate.
Defined.

(** * The entries of a notifier *)

Lemma substring_nothing (s : string) :
  String.substring (String.length s) 0 s = ""%string.
Proof. induction s as [|c s IH]; [reflexivity|exact IH]. Qed.

Lemma string_append_empty (s : string) : (s ++ "")%string = s.
Proof.
  induction s as [|c s IH]; [reflexivity|].
  change (String c (s ++ "")%string = String c s). f_equal. exact IH.
Qed.

(** Copying a name over a buffer that holds it leaves the name. *)
Lemma wstring_copy_same (name : wstring) : wstring_copy name name = name.
Proof.
  unfold wstring_copy. rewrite Nat.sub_diag, substring_nothing.
  apply string_append_empty.
Qed.

Lemma Start_keeps_well_formed (os : OS) (this : ServiceStatusChangedNotifier)
    (service_list : list wstring) (mask : DWORD) (action : ActionFunction) :
  well_formed this ->
  well_formed (fst (Start os this service_list mask action)).
Proof.
  intros Hwf key value. rewrite Start_lookup_cases.
  destruct (processed os service_list key); [|apply Hwf].
  intros [= <-]. split; [|reflexivity]. simpl. unfold subscript.
  destruct (service_data_map_ this !! key) as [old|] eqn:Hold; simpl.
  - rewrite (proj1 (Hwf key old Hold)). apply wstring_copy_same.
  - apply wstring_copy_empty.
Qed.

Lemma Stop_keeps_well_formed (os : OS) (this : ServiceStatusChangedNotifier) :
  well_formed this -> well_formed (fst (Stop os this)).
Proof.
  intros Hwf key value. rewrite Stop_lookup_state.
  destruct (service_data_map_ this !! key) as [old|] eqn:Hold; simpl;
    [|discriminate].
  intros [= <-]. exact (Hwf key old Hold).
Qed.

Lemma reachable_well_formed (this : ServiceStatusChangedNotifier) :
  reachable this -> well_formed this.
Proof.
  induction 1 as [|os this service_list mask action _ IH|os this _ IH].
  - intros key value Hk. simpl in Hk. rewrite lookup_empty in Hk.
    discriminate.
  - apply Start_keeps_well_formed, IH.
  - apply Stop_keeps_well_formed, IH.
Qed.

(** A name is read back up to its first zero character, and whole when it
    has none. *)
Lemma c_str_stops_at_zero (s t : wstring) :
  c_str (s ++ String Ascii.zero t)%string = c_str s.
Proof.
  induction s as [|c s IH]; [reflexivity|].
  change (c_str (String c (s ++ String Ascii.zero t)%string)
          = c_str (String c s)).
  simpl. rewrite IH. reflexivity.
Qed.

Lemma c_str_without_zero (s : wstring) :
  (forall n, String.get n s <> Some Ascii.zero) -> c_str s = s.
Proof.
  induction s as [|c s IH]; intros Hz; [reflexivity|]. simpl.
  destruct (Ascii.eqb_spec c Ascii.zero) as [->|_].
  - exfalso. apply (Hz 0%nat). reflexivity.
  - f_equal. apply IH. intros n. apply (Hz (S n)).
Qed.

(** Following the address of an entry that is wired as [Start] wires it. *)
Lemma well_formed_deref (this : ServiceStatusChangedNotifier)
    (key : wstring) (value : ServiceData) :
  well_formed this ->
  service_data_map_ this !! key = Some value ->
  deref this (Some (addr_notify_buffer key))
  = Some {| pContext := Some (context_ this); pszServiceNames := c_str key |}.
Proof.
  intros Hwf Hk. destruct (Hwf key value Hk) as [Hname Hbuf].
  unfold deref. rewrite Hk, Hbuf. simpl. rewrite Hk, Hname. reflexivity.
Qed.

Lemma names_fit_lookup (m : gmap wstring ServiceData) (key : wstring)
    (value : ServiceData) :
  names_fit m = true ->
  m !! key = Some value ->
  (String.length key <= MAX_PATH)%nat.
Proof.
  unfold names_fit. intros Hfit Hk.
  apply Nat.leb_le.
  apply (proj1 (forallb_forall _ _) Hfit (key, value)).
  apply list_elem_of_In, elem_of_map_to_list, Hk.
Qed.

(** X12: in every state a notifier can be in (a new one, and what any
    sequence of [Start] and [Stop] calls makes of it, on whatever systems)
    all of whose keys fit the name array with its terminating zero, every
    entry is wired as [Start] wired it: its name buffer holds the characters
    of its key, inside the array, and its notify buffer points to the
    notifier's context and to that name buffer.  So the address registered
    for an entry leads the callback to the notifier's current context and
    to the entry's key as a zero-terminated string (the key up to its first
    zero character, the whole key when it has none), before and after
    [Stop]. *)
Theorem reachable_entries_are_wired (this : ServiceStatusChangedNotifier)
    (key : wstring) (value : ServiceData) :
  reachable this ->
  names_fit (service_data_map_ this) = true ->
  service_data_map_ this !! key = Some value ->
  wired key value
  /\ (String.length (service_name value) <= MAX_PATH)%nat
  /\ deref this (Some (addr_notify_buffer key))
     = Some {| pContext := Some (context_ this);
               pszServiceNames := c_str key |}.
Proof.
  intros Hreach Hfit Hk.
  pose proof (reachable_well_formed this Hreach) as Hwf.
  split; [exact (Hwf key value Hk)|]. split.
  - rewrite (proj1 (Hwf key value Hk)). exact (names_fit_lookup _ _ _ Hfit Hk).
  - exact (well_formed_deref _ _ _ Hwf Hk).
Qed.

(** The entry of [Alpha] in [started_demo] after [Stop]. *)
Lemma stopped_demo_Alpha :
  service_data_map_ (fst (Stop os_demo started_demo)) !! "Alpha"
  = Some {| service_name := "Alpha";
            notify_buffer :=
              {| pContext := Some addr_context_;
                 pszServiceNames := Some (addr_service_name "Alpha") |};
            registration := nullptr;
            system_error_code := ERROR_SUCCESS |}.
Proof. vm_compute. reflexivity. Qed.

Lemma reachable_entries_are_wired_witness :
  wired "Alpha"
    {| service_name := "Alpha";
       notify_buffer :=
         {| pContext := Some addr_context_;
            pszServiceNames := Some (addr_service_name "Alpha") |};
       registration := nullptr;
       system_error_code := ERROR_SUCCESS |}
  /\ (String.length "Alpha" <= MAX_PATH)%nat
  /\ deref (fst (Stop os_demo started_demo)) (Some (addr_notify_buffer "Alpha"))
     = Some {| pContext := Some (context_ (fst (Stop os_demo started_demo)));
               pszServiceNames := "Alpha" |}.
Proof.
  apply (reachable_entries_are_wired (fst (Stop os_demo started_demo)) "Alpha").
  - apply reachable_Stop. unfold started_demo.
    apply reachable_Start, reachable_new.
  - vm_compute. reflexivity.
  - exact stopped_demo_Alpha.
Defined.

(** X13: the context is shared by all entries, so a [Start] rebinds every
    entry of the map, also those of earlier calls whose names it does not
    list: after it (all keys fitting the name array with its terminating
    zero), a notification for any entry is filtered by the mask of this
    call and goes to the action of this call, with the entry's key as a
    zero-terminated string for name, for every flag value. *)
Theorem Start_rebinds_every_entry (os : OS)
    (this : ServiceStatusChangedNotifier)
    (service_list : list wstring) (mask : DWORD) (action : ActionFunction)
    (key : wstring) (dwNotify : DWORD) :
  reachable this ->
  names_fit
    (service_data_map_ (fst (Start os this service_list mask action))) = true ->
  is_Some (service_data_map_ (fst (Start os this service_list mask action))
             !! key) ->
  NotifyCallbackFunc dwNotify
    (deref (fst (Start os this service_list mask action))
           (Some (addr_notify_buffer key)))
  = NotifyCallbackFunc dwNotify (Some (buffer_for (c_str key) mask action)).
Proof.
  intros Hreach _ [value Hk].
  assert (Hwf : well_formed (fst (Start os this service_list mask action)))
    by apply Start_keeps_well_formed, reachable_well_formed, Hreach.
  rewrite (well_formed_deref _ _ _ Hwf Hk), Start_context. reflexivity.
Qed.

(** The entry of [Alpha], registered by the first call, after a second
    [Start] that lists [Gamma] alone. *)
Lemma restarted_demo_Alpha :
  service_data_map_
    (fst (Start os_later started_demo ["Gamma"] SERVICE_NOTIFY_RUNNING
            throwing_action)) !! "Alpha"
  = Some {| service_name := "Alpha";
            notify_buffer :=
              {| pContext := Some addr_context_;
                 pszServiceNames := Some (addr_service_name "Alpha") |};
            registration := 1010;
            system_error_code := ERROR_SUCCESS |}.
Proof. vm_compute. reflexivity. Qed.

Lemma Start_rebinds_every_entry_witness :
  NotifyCallbackFunc SERVICE_NOTIFY_RUNNING
    (deref (fst (Start os_later started_demo ["Gamma"] SERVICE_NOTIFY_RUNNING
                   throwing_action))
           (Some (addr_notify_buffer "Alpha")))
  = NotifyCallbackFunc SERVICE_NOTIFY_RUNNING
      (Some (buffer_for "Alpha" SERVICE_NOTIFY_RUNNING throwing_action)).
Proof.
  exact (Start_rebinds_every_entry os_later started_demo ["Gamma"]
           SERVICE_NOTIFY_RUNNING throwing_action "Alpha"
           SERVICE_NOTIFY_RUNNING
           (reachable_Start os_demo _ _ _ _ reachable_new)
           eq_refl
           (ex_intro _ _ restarted_demo_Alpha)).
Defined.

(** * The demonstration program *)

(** X14: over the whole run of [main], on every system, each registration
    [Start] stored for its two services is handed to the cancel wrapper
    exactly once, by the explicit [Stop]; the destructor that runs when
    [main] returns finds nothing to cancel and makes no call at all. *)
Theorem main_cancels_once (os : OS) :
  main os
  = snd (Start os ServiceStatusChangedNotifier_new ["W32Time"; "WebClient"]
           SERVICE_NOTIFY_STOPPED OnNotificationAction)
    ++ snd (Stop os
              (fst (Start os ServiceStatusChangedNotifier_new
                      ["W32Time"; "WebClient"] SERVICE_NOTIFY_STOPPED
                      OnNotificationAction)))
  /\ unsubscribe_requests (main os)
     = live_registrations
         (service_data_map_
            (fst (Start os ServiceStatusChangedNotifier_new
                    ["W32Time"; "WebClient"] SERVICE_NOTIFY_STOPPED
                    OnNotificationAction))).
Proof.
  assert (Hmain :
    main os
    = snd (Start os ServiceStatusChangedNotifier_new ["W32Time"; "WebClient"]
             SERVICE_NOTIFY_STOPPED OnNotificationAction)
      ++ snd (Stop os
                (fst (Start os ServiceStatusChangedNotifier_new
                        ["W32Time"; "WebClient"] SERVICE_NOTIFY_STOPPED
                        OnNotificationAction)))).
  { unfold main.
    destruct (Start os ServiceStatusChangedNotifier_new _ _ _)
      as [started t_start]. simpl.
    pose proof (Stop_inactive os _ (Stop_leaves_none_live os started)) as Hd.
    unfold destructor.
    destruct (Stop os started) as [stopped t_stop]. simpl in *.
    rewrite Hd, app_nil_r. reflexivity. }
  split; [exact Hmain|].
  rewrite Hmain, unsubscribe_requests_app, Stop_requests.
  rewrite (proj1 (Start_cancels_nothing os _ _ _ _)). reflexivity.
Qed.

(** * The guard of the cancel wrapper *)

(** X15: the cancel wrapper does not test its argument: when the primitive
    resolves, it passes on whatever handle it is given, a null one
    included.  The test is the caller's, and [Stop] makes it: it never
    hands a null handle to the wrapper, so none reaches the primitive, and
    neither does the destructor. *)
Theorem Stop_never_cancels_null (os : OS) (this : ServiceStatusChangedNotifier)
    (r : PSC_NOTIFICATION_REGISTRATION) :
  unsubscribed (UnsubscribeServiceChangeNotificationsWrapper os r)
  = (if unsubscribe_resolves os then [r] else [])
  /\ ~ In nullptr (unsubscribe_requests (snd (Stop os this)))
  /\ ~ In nullptr (unsubscribed (snd (Stop os this)))
  /\ ~ In nullptr (unsubscribe_requests (destructor os this)).
Proof.
  assert (Hlive : ~ In nullptr (live_registrations (service_data_map_ this))).
  { unfold live_registrations. intros Hin.
    apply filter_In in Hin as [_ Hn]. discriminate. }
  split; [apply UnsubscribeWrapper_unsubscribed|].
  split; [rewrite Stop_requests; exact Hlive|].
  split.
  - rewrite Stop_unsubscribed.
    destruct (unsubscribe_resolves os); [exact Hlive|intros []].
  - unfold destructor. pose proof (Stop_requests os this) as Hs.
    destruct (Stop os this) as [stopped t]. simpl in Hs. rewrite Hs.
    exact Hlive.
Qed.
